(** * GRU_Prediction: the preprocessing, model wrappers, batching and
      evaluation of [main.ipynb], embedded in Rocq.

    Numbers.  The notebook computes in IEEE doubles; this development
    computes in exact rationals [Q], compared with [==].  Rounding is
    therefore out of the model; division by zero is [0] here where numpy
    gives [inf] or [nan], and every statement that divides says which
    denominators it takes to be non-zero.

    Arrays.  A numpy array or torch tensor of rank 1, 2 or 3 is a list,
    a list of rows, a list of matrices.  Dictionaries that are only read
    by key are [gmap]s; the one that is iterated ([test_x]) is an
    association list that keeps Python's insertion order. *)

From Stdlib Require Import QArith Qminmax Qabs Qfield Lqa.
From stdpp Require Import base list strings gmap.

Open Scope Q_scope.

(** ** Arrays *)

Abbreviation vec := (list Q) (only parsing).
Abbreviation matrix := (list (list Q)) (only parsing).
Abbreviation tensor3 := (list (list (list Q))) (only parsing).

(** Exceptions the notebook can run into. *)
Inductive exn :=
| ValueError_min_samples      (* sklearn: fit on an array without rows or columns *)
| ValueError_negative_dims    (* numpy: np.zeros with a negative dimension *)
| IndexError                  (* index -1 along an axis of size 0 *)
| RuntimeError_shape          (* torch: operand widths do not match *)
| StopIteration               (* next() on an exhausted iterator *)
| KeyError (k : string).      (* dict[k] for an absent key *)

Inductive result (A : Type) :=
| Ok (a : A)
| Raise (e : exn).
Arguments Ok {A} a.
Arguments Raise {A} e.

Global Instance result_ret : MRet result := fun A a => Ok a.
Global Instance result_bind : MBind result := fun A B k m =>
  match m with
  | Ok a => k a
  | Raise e => Raise e
  end.

(** A [for] loop whose body may raise: the first exception ends it. *)
Fixpoint for_each {A S} (body : S -> A -> result S) (xs : list A) (s : S)
  : result S :=
  match xs with
  | [] => Ok s
  | x :: xs' => s' ← body s x; for_each body xs' s'
  end.

(** [X.shape[1]] of a rank-2 array with at least one row. *)
Definition ncols (X : matrix) : nat :=
  match X with
  | [] => O
  | r :: _ => length r
  end.

(** [X[:, j]]. *)
Definition column (j : nat) (X : matrix) : vec :=
  map (fun r => nth j r 0) X.

(** [v.reshape(-1, 1)]: a vector as a one-column matrix. *)
Definition reshape_col (v : vec) : matrix := map (fun x => [x]) v.

(** [M.reshape(-1)]: row-major flattening. *)
Definition reshape_flat (M : matrix) : vec := concat M.

(** ** sklearn's MinMaxScaler, feature_range = (0, 1) *)

Module MinMaxScaler.

Record t := mk {
  data_min_ : vec;
  data_max_ : vec;
  scale_ : vec;
  min_ : vec
}.

Definition np_min (x : Q) (v : vec) : Q := fold_left Qmin v x.
Definition np_max (x : Q) (v : vec) : Q := fold_left Qmax v x.

(** [_handle_zeros_in_scale]: a constant column gets the range 1. *)
Definition handle_zeros_in_scale (r : Q) : Q :=
  if Qeq_bool r 0 then 1 else r.

(** The four fitted attributes of one column. *)
Definition fit_column (c : vec) : Q * Q * Q * Q :=
  match c with
  | [] => (0, 0, 1, 0)
  | x :: v =>
      let lo := np_min x v in
      let hi := np_max x v in
      let scale := (1 - 0) / handle_zeros_in_scale (hi - lo) in
      (lo, hi, scale, 0 - lo * scale)
  end.

(** [fit(X)]: per column minimum, maximum, scale and offset.
    [check_array] refuses an array with no row or no column. *)
Definition fit (X : matrix) : result t :=
  match X with
  | [] => Raise ValueError_min_samples
  | r :: _ =>
      match r with
      | [] => Raise ValueError_min_samples
      | _ :: _ =>
          let ps := map (fun j => fit_column (column j X)) (seq 0 (length r)) in
          Ok {| data_min_ := map (fun p => p.1.1.1) ps;
                data_max_ := map (fun p => p.1.1.2) ps;
                scale_ := map (fun p => p.1.2) ps;
                min_ := map (fun p => p.2) ps |}
      end
  end.

(** Broadcast of a row against two per-column vectors. *)
Fixpoint zip3 (f : Q -> Q -> Q -> Q) (r a b : vec) : vec :=
  match r, a, b with
  | x :: r', s :: a', m :: b' => f x s m :: zip3 f r' a' b'
  | _, _, _ => []
  end.

(** [transform(X)]: [X * scale_ + min_]. *)
Definition transform (sc : t) (X : matrix) : matrix :=
  map (fun r => zip3 (fun x s m => x * s + m) r (scale_ sc) (min_ sc)) X.

(** The arithmetic of [inverse_transform(X)]: [(X - min_) / scale_]. *)
Definition inverse_transform (sc : t) (X : matrix) : matrix :=
  map (fun r => zip3 (fun x s m => (x - m) / s) r (scale_ sc) (min_ sc)) X.

(** [check_array(X)], which the methods run on their argument first: an
    array with no row or no column is refused. *)
Definition check_array (X : matrix) : result matrix :=
  match X with
  | [] => Raise ValueError_min_samples
  | r :: _ =>
      match r with
      | [] => Raise ValueError_min_samples
      | _ :: _ => Ok X
      end
  end.

(** [sc.inverse_transform(X)] as the notebook calls it: the check, then
    the arithmetic. *)
Definition inverse_transform_call (sc : t) (X : matrix) : result matrix :=
  X ← check_array X;
  Ok (inverse_transform sc X).

Definition fit_transform (X : matrix) : result (t * matrix) :=
  sc ← fit X;
  Ok (sc, transform sc X).

End MinMaxScaler.

(** ** Python and numpy primitives used by the preprocessing cell *)

(** Normalisation of a slice bound [i] against a length: a negative
    bound counts from the end, and every bound is clamped into the
    array.  [-0] is [0]. *)
Definition slice_bound (len : nat) (i : Z) : nat :=
  if (i <? 0)%Z then Z.to_nat (Z.max (Z.of_nat len + i) 0)
  else Nat.min (Z.to_nat i) len.

(** [a[:stop]] and [a[start:]]. *)
Definition slice_to {A} (stop : Z) (a : list A) : list A :=
  take (slice_bound (length a) stop) a.
Definition slice_from {A} (start : Z) (a : list A) : list A :=
  drop (slice_bound (length a) start) a.

(** [a[lo:hi]] for non-negative [lo <= hi]. *)
Definition slice {A} (lo hi : nat) (a : list A) : list A :=
  take (hi - lo) (drop lo a).

(** [np.zeros(n)] and [np.zeros((n, l, f))]; [n] is a Python int and may
    be negative. *)
Definition np_zeros1 (n : Z) : result vec :=
  if (n <? 0)%Z then Raise ValueError_negative_dims
  else Ok (replicate (Z.to_nat n) 0).
Definition np_zeros3 (n : Z) (l f : nat) : result tensor3 :=
  if (n <? 0)%Z then Raise ValueError_negative_dims
  else Ok (replicate (Z.to_nat n) (replicate l (replicate f 0))).

(** A dict in insertion order: assignment to a present key keeps its
    place, assignment to a new key goes last. *)
Abbreviation odict A := (list (string * A)) (only parsing).

Fixpoint odict_set {A} (k : string) (v : A) (d : odict A) : odict A :=
  match d with
  | [] => [(k, v)]
  | (k', v') :: d' =>
      if decide (k' = k) then (k, v) :: d' else (k', v') :: odict_set k v d'
  end.

Fixpoint odict_get {A} (k : string) (d : odict A) : option A :=
  match d with
  | [] => None
  | (k', v') :: d' => if decide (k' = k) then Some v' else odict_get k d'
  end.

Definition odict_keys {A} (d : odict A) : list string := map fst d.

(** [d[k]] as an expression. *)
Definition getitem {A} (o : option A) (k : string) : result A :=
  match o with
  | Some a => Ok a
  | None => Raise (KeyError k)
  end.

(** ** The preprocessing cell *)

(** The variables the cell leaves behind. *)
Record Notebook := mkNotebook {
  label_scalers : gmap string MinMaxScaler.t;
  train_x : tensor3;
  train_y : matrix;
  test_x : odict tensor3;
  test_y : gmap string matrix
}.

Definition notebook0 : Notebook :=
  {| label_scalers := ∅; train_x := []; train_y := [];
     test_x := []; test_y := ∅ |}.

Definition lookback : nat := 90.

(** One turn of [for i in range(lookback, len(data))]. *)
Definition window_step (L : nat) (data : matrix) (acc : tensor3 * vec) (i : nat)
  : tensor3 * vec :=
  (<[(i - L)%nat := slice (i - L) i data]> acc.1,
   <[(i - L)%nat := nth 0 (nth i data []) 0]> acc.2).

Definition window_loop (L : nat) (data : matrix) (inputs : tensor3) (labels : vec)
  : tensor3 * vec :=
  fold_left (window_step L data) (seq L (length data - L)) (inputs, labels).

(** [int(0.1 * n)].  The double nearest to 0.1 lies above 1/10 by less
    than 6e-18, so for every length an array can have the product
    rounds to a double whose integer part is the quotient of [n] by 10. *)
Definition int_tenth (n : nat) : nat := (n / 10)%nat.

(** [label_scalers[file] = label_sc]. *)
Definition store_label_scaler (nb : Notebook) (file : string)
    (label_sc : MinMaxScaler.t) : Notebook :=
  {| label_scalers := <[file := label_sc]> (label_scalers nb);
     train_x := train_x nb;
     train_y := train_y nb;
     test_x := test_x nb;
     test_y := test_y nb |}.

(** The train/test split and the update of the pools. *)
Definition split (nb : Notebook) (file : string)
    (inputs : tensor3) (labels : matrix) : Notebook :=
  let test_portion := int_tenth (length inputs) in
  let k := (- Z.of_nat test_portion)%Z in
  let '(tx, ty) :=
    if decide (length (train_x nb) = 0%nat)
    then (slice_to k inputs, slice_to k labels)
    else (train_x nb ++ slice_to k inputs, train_y nb ++ slice_to k labels) in
  {| label_scalers := label_scalers nb;
     train_x := tx;
     train_y := ty;
     test_x := odict_set file (slice_from k inputs) (test_x nb);
     test_y := <[file := slice_from k labels]> (test_y nb) |}.

(** [file[-4:] != ".csv" or file == "pjm_hourly_est.csv"]. *)
Definition skipped (file : string) : bool :=
  negb (String.eqb (String.substring (String.length file - 4) 4 file) ".csv")
  || String.eqb file "pjm_hourly_est.csv".

Section Preprocessing.

(** [df.values] once the file has been read, the four calendar
    columns added, the rows sorted by time and the time column
    dropped: column 0 is the consumption.  A file without data rows
    does not get this far (the assignment of the first calendar column
    raises), so the tables of interest have at least one row. *)
Variable df_values : string -> matrix.

(** The windows and labels of one file: scaling, allocation, the
    window loop and the two reshapes.  On an array of shape
    [(n, 90, F)] with [F >= 1], [reshape(-1, 90, F)] is the identity. *)
Definition windows_of (file : string)
  : result (MinMaxScaler.t * tensor3 * matrix) :=
  let df := df_values file in
  '(sc, data) ← MinMaxScaler.fit_transform df;
  label_sc ← MinMaxScaler.fit (reshape_col (column 0 df));
  let n := (Z.of_nat (length data) - Z.of_nat lookback)%Z in
  inputs ← np_zeros3 n lookback (ncols df);
  labels ← np_zeros1 n;
  let '(inputs, labels) := window_loop lookback data inputs labels in
  Ok (label_sc, inputs, reshape_col labels).

(** The body of the loop over the directory, for a file that is not
    skipped.  An exception ends the run, so it does not show that the
    notebook stores the label scaler before it allocates the windows. *)
Definition preprocess_file (nb : Notebook) (file : string) : result Notebook :=
  '(label_sc, inputs, labels) ← windows_of file;
  let nb := store_label_scaler nb file label_sc in
  Ok (split nb file inputs labels).

(** [for ii, file in enumerate(os.listdir(data_dir))]. *)
Definition preprocess (files : list string) (nb : Notebook) : result Notebook :=
  for_each
    (fun nb file => if skipped file then Ok nb else preprocess_file nb file)
    files nb.

End Preprocessing.

(** ** torch primitives used by the two networks *)

(** [nn.ReLU()], elementwise. *)
Definition relu (X : matrix) : matrix := map (map (Qmax 0)) X.

(** [out[:, -1]]: the last time step of every sequence of the batch. *)
Definition getitem_last (steps : matrix) : result vec :=
  match last steps with
  | Some v => Ok v
  | None => Raise IndexError
  end.

Definition last_step (out : tensor3) : result matrix := mapM getitem_last out.

(** [nn.Linear(in_features, out_features)]: [y = x W^T + b], row by row. *)
Module Linear.

Record t := mk {
  in_features : nat;
  out_features : nat;
  weight : matrix;     (* out_features rows of in_features entries *)
  bias : vec           (* out_features entries *)
}.

Definition dot (x w : vec) : Q := foldr Qplus 0 (zip_with Qmult x w).

Definition apply_row (l : t) (x : vec) : result vec :=
  if decide (length x = in_features l)
  then Ok (zip_with (fun w b => dot x w + b) (weight l) (bias l))
  else Raise RuntimeError_shape.

Definition apply (l : t) (X : matrix) : result matrix := mapM (apply_row l) X.

(** What the constructor establishes. *)
Definition wf (l : t) : Prop :=
  length (weight l) = out_features l ∧ length (bias l) = out_features l.

End Linear.

(** [weight.new(n, b, h)]: a fresh tensor whose entries are whatever the
    allocator left there, here the function [junk] of the position (one
    such function per allocation site); [zero_()] overwrites every entry. *)
Definition tensor_new (junk : nat -> nat -> nat -> Q) (n b h : nat) : tensor3 :=
  map (fun i => map (fun j => map (fun k => junk i j k) (seq 0 h)) (seq 0 b)) (seq 0 n).

Definition zero_ (T : tensor3) : tensor3 := map (map (map (fun _ => 0))) T.

(** ** The two networks *)

Module GRUNet.

Record t := mk {
  hidden_dim : nat;
  n_layers : nat;
  gru : tensor3 -> tensor3 -> tensor3 * tensor3;   (* nn.GRU, not interpreted *)
  fc : Linear.t;
  junk : nat -> nat -> nat -> Q
}.

Definition forward (self : t) (x : tensor3) (h : tensor3)
  : result (matrix * tensor3) :=
  let '(out, h) := gru self x h in
  last ← last_step out;
  out ← Linear.apply (fc self) (relu last);
  Ok (out, h).

Definition init_hidden (self : t) (batch_size : nat) : tensor3 :=
  let hidden := zero_ (tensor_new (junk self) (n_layers self) batch_size (hidden_dim self)) in
  hidden.

End GRUNet.

Module LSTMNet.

Record t := mk {
  hidden_dim : nat;
  n_layers : nat;
  lstm : tensor3 -> tensor3 * tensor3 -> tensor3 * (tensor3 * tensor3);  (* nn.LSTM *)
  fc : Linear.t;
  junk : nat -> nat -> nat -> Q;
  junk' : nat -> nat -> nat -> Q
}.

Definition forward (self : t) (x : tensor3) (h : tensor3 * tensor3)
  : result (matrix * (tensor3 * tensor3)) :=
  let '(out, h) := lstm self x h in
  last ← last_step out;
  out ← Linear.apply (fc self) (relu last);
  Ok (out, h).

Definition init_hidden (self : t) (batch_size : nat) : tensor3 * tensor3 :=
  let hidden :=
    (zero_ (tensor_new (junk self) (n_layers self) batch_size (hidden_dim self)),
     zero_ (tensor_new (junk' self) (n_layers self) batch_size (hidden_dim self))) in
  hidden.

End LSTMNet.

(** What [train] and [evaluate] use of a network, whichever it is. *)
Class Model (M : Type) := {
  hidden : Type;
  forward : M -> tensor3 -> hidden -> result (matrix * hidden);
  init_hidden : M -> nat -> hidden
}.

Global Instance GRUNet_Model : Model GRUNet.t :=
  {| forward := GRUNet.forward; init_hidden := GRUNet.init_hidden |}.
Global Instance LSTMNet_Model : Model LSTMNet.t :=
  {| forward := LSTMNet.forward; init_hidden := LSTMNet.init_hidden |}.

(** ** The batch iterator *)

Definition batch_size : nat := 1024.

Module DataLoader.

(** [DataLoader(TensorDataset(x, y), shuffle=True, batch_size=...,
    drop_last=...)]. *)
Record t := mk {
  dataset_x : tensor3;
  dataset_y : matrix;
  batch_size : nat;
  drop_last : bool
}.

(** [BatchSampler.__iter__]: indices are appended to [batch]; a full
    batch is yielded and a new one begun; what is left at the end is
    yielded only without [drop_last]. *)
Fixpoint batch_sampler (bs : nat) (drop : bool) (sampler batch : list nat)
  : list (list nat) :=
  match sampler with
  | [] => if bool_decide (0 < length batch)%nat && negb drop then [batch] else []
  | idx :: sampler' =>
      let batch := batch ++ [idx] in
      if decide (length batch = bs)
      then batch :: batch_sampler bs drop sampler' []
      else batch_sampler bs drop sampler' batch
  end.

(** The default collate function on [(x[i], y[i])] pairs. *)
Definition collate (dl : t) (idxs : list nat) : tensor3 * matrix :=
  (map (fun i => nth i (dataset_x dl) []) idxs,
   map (fun i => nth i (dataset_y dl) []) idxs).

(** One pass, [perm] being the order the random sampler drew for it. *)
Definition iter (dl : t) (perm : list nat) : list (tensor3 * matrix) :=
  map (collate dl) (batch_sampler (batch_size dl) (drop_last dl) perm []).

(** [len(loader)]. *)
Definition len (dl : t) : nat :=
  let n := length (dataset_x dl) in
  if drop_last dl then (n / batch_size dl)%nat
  else ((n + batch_size dl - 1) / batch_size dl)%nat.

End DataLoader.

Definition train_loader (train_x : tensor3) (train_y : matrix) : DataLoader.t :=
  {| DataLoader.dataset_x := train_x; DataLoader.dataset_y := train_y;
     DataLoader.batch_size := batch_size; DataLoader.drop_last := true |}.

(** ** Training and evaluation *)

Section TrainEvaluate.

Context {M : Type} `{Model M}.

(** The constructor call with its random initialisation, and the five
    statements from [model.zero_grad()] to [loss.item()]: neither is
    interpreted.  [draw k] is the order drawn for the [k]-th pass over
    the loader. *)
Variable construct : nat -> M.
Variable optimise : M -> tensor3 -> matrix -> hidden -> result (M * hidden * Q).
Variable draw : nat -> list nat.

(** The body of [for x, label in train_loader]; [h.data] has the
    values of [h]. *)
Definition train_batch (st : M * hidden * Q * nat) (b : tensor3 * matrix)
  : result (M * hidden * Q * nat) :=
  let '(model, h, avg_loss, counter) := st in
  let counter := (counter + 1)%nat in
  '(model, h, loss) ← optimise model b.1 b.2 h;
  Ok (model, h, avg_loss + loss, counter).

Definition train_epoch (tl : DataLoader.t) (model : M) (epoch : nat)
  : result (M * hidden * Q * nat) :=
  let h := init_hidden model batch_size in
  for_each train_batch (DataLoader.iter tl (draw epoch)) (model, h, 0, O).

Definition train (tl : DataLoader.t) (EPOCHS : nat) : result M :=
  match DataLoader.iter tl (draw 0) with
  | [] => Raise StopIteration
  | first :: _ =>
      let input_dim := ncols (hd [] first.1) in
      let model := construct input_dim in
      for_each
        (fun model epoch => '(model, _, _, _) ← train_epoch tl model epoch;
                            Ok model)
        (seq 1 EPOCHS) model
  end.

(** The body of [for i in test_x.keys()]. *)
Definition evaluate_file (model : M) (test_x : odict tensor3)
    (test_y : gmap string matrix) (label_scalers : gmap string MinMaxScaler.t)
    (acc : list vec * list vec) (i : string) : result (list vec * list vec) :=
  inp ← getitem (odict_get i test_x) i;
  labs ← getitem (test_y !! i) i;
  let h := init_hidden model (length inp) in
  '(out, h) ← forward model inp h;
  sc ← getitem (label_scalers !! i) i;
  out ← MinMaxScaler.inverse_transform_call sc out;
  let outputs := acc.1 ++ [reshape_flat out] in
  sc ← getitem (label_scalers !! i) i;
  labs ← MinMaxScaler.inverse_transform_call sc labs;
  let targets := acc.2 ++ [reshape_flat labs] in
  Ok (outputs, targets).

(** [np.mean] of a vector. *)
Definition np_mean (v : vec) : Q :=
  foldr Qplus 0 v / inject_Z (Z.of_nat (length v)).

(** [abs(o - t) / (t + o) / 2], elementwise. *)
Definition sMAPE_terms (o t : vec) : vec :=
  zip_with (fun o t => Qabs (o - t) / (t + o) / 2) o t.

(** The loop [for i in range(len(outputs))] that adds up [sMAPE]. *)
Definition sMAPE_loop (outputs targets : list vec) : Q :=
  fold_left
    (fun sMAPE i =>
       sMAPE + np_mean (sMAPE_terms (nth i outputs []) (nth i targets []))
               / inject_Z (Z.of_nat (length outputs)))
    (seq 0 (length outputs)) 0.

Definition evaluate (model : M) (test_x : odict tensor3)
    (test_y : gmap string matrix) (label_scalers : gmap string MinMaxScaler.t)
  : result (list vec * list vec * Q) :=
  '(outputs, targets) ←
    for_each (evaluate_file model test_x test_y label_scalers)
             (odict_keys test_x) ([], []);
  let sMAPE := sMAPE_loop outputs targets in
  Ok (outputs, targets, sMAPE).

End TrainEvaluate.

(** ** Notions the statements below use *)

Definition Qsum (v : vec) : Q := foldr Qplus 0 v.

(** The per-file mean the [sMAPE] loop adds for one file. *)
Definition file_error (o t : vec) : Q := np_mean (sMAPE_terms o t).

(** The error term as the specification words it: the absolute error
    over the mean of target and prediction. *)
Definition sMAPE_term_spec (o t : Q) : Q := Qabs (o - t) / ((t + o) / 2).

(** [np.shape] of an array of rank 2. *)
Definition shape2 (X : matrix) : list nat := [length X; ncols X].

(** A rank-3 array has shape [(n, b, h)]; every entry is zero. *)
Definition has_shape3 (T : tensor3) (n b h : nat) : Prop :=
  length T = n ∧ Forall (fun X => length X = b ∧ Forall (fun r => length r = h) X) T.
Definition all_zero (T : tensor3) : Prop :=
  Forall (Forall (Forall (fun x : Q => x = 0))) T.


(** ** Small concrete inputs *)

Module Demo.

(** A table of [n] hourly rows: consumption [100 + 3 i mod 17] and the
    hour of the day. *)
Definition frame (n : nat) : matrix :=
  map (fun i => [inject_Z (Z.of_nat (100 + (3 * i) mod 17));
                 inject_Z (Z.of_nat (i mod 24))])
      (seq 0 n).

(** A directory of five tables of 101, 90, 40, 95 and 200 rows. *)
Definition df_values (file : string) : matrix :=
  if String.eqb file "a.csv" then frame 101
  else if String.eqb file "b.csv" then frame 90
  else if String.eqb file "c.csv" then frame 40
  else if String.eqb file "d.csv" then frame 95
  else frame 200.

(** A recurrent layer that answers 11/20 at its single step, whatever
    it is given, with a one-to-one linear layer behind it. *)
Definition fc1 : Linear.t :=
  {| Linear.in_features := 1; Linear.out_features := 1;
     Linear.weight := [[1]]; Linear.bias := [0] |}.

Definition gru_net : GRUNet.t :=
  {| GRUNet.hidden_dim := 1; GRUNet.n_layers := 2;
     GRUNet.gru := fun x h => (map (fun _ => [[11 # 20]]) x, h);
     GRUNet.fc := fc1;
     GRUNet.junk := fun i j k => inject_Z (Z.of_nat (i + j + k + 1)) |}.

Definition lstm_net : LSTMNet.t :=
  {| LSTMNet.hidden_dim := 1; LSTMNet.n_layers := 2;
     LSTMNet.lstm := fun x h => (map (fun _ => [[11 # 20]]) x, h);
     LSTMNet.fc := fc1;
     LSTMNet.junk := fun i j k => inject_Z (Z.of_nat (i + j + k + 1));
     LSTMNet.junk' := fun i j k => inject_Z (Z.of_nat (i * j * k)) |}.

(** A label scaler fitted on a column that ranges over [0, 200]. *)
Definition sc200 : MinMaxScaler.t := MinMaxScaler.mk [0] [200] [1 # 200] [0].

(** A test pool of one file with one window, whose scaled label is 1/2. *)
Definition pool_x : odict tensor3 := [("a.csv"%string, [[[1 # 2]]])].
Definition pool_y : gmap string matrix := {["a.csv"%string := [[1 # 2]]]}.
Definition pool_scalers : gmap string MinMaxScaler.t := {["a.csv"%string := sc200]}.

(** A batch of two windows of one step and one feature. *)
Definition batch2 : tensor3 := [[[1 # 2]]; [[1 # 3]]].

(** The entries of the directory, in the order they are listed. *)
Definition files : list string :=
  ["a.csv"; "notes.txt"; "d.csv"; "pjm_hourly_est.csv"]%string.

Definition get {A} (d : A) (r : result A) : A :=
  match r with
  | Ok a => a
  | Raise _ => d
  end.

Definition no_scaler : MinMaxScaler.t := MinMaxScaler.mk [] [] [] [].

(** The windows of the tables of 101 and of 95 rows. *)
Definition win_a : MinMaxScaler.t * tensor3 * matrix :=
  get (no_scaler, [], []) (windows_of df_values "a.csv").

(** The notebook after the preprocessing cell, and what the
    evaluator returns on it. *)
Definition nb : Notebook := get notebook0 (preprocess df_values files notebook0).
Definition ev : list (list Q) * list (list Q) * Q :=
  get ([], [], 0) (evaluate gru_net (test_x nb) (test_y nb) (label_scalers nb)).

(** A training pool of 2050 windows, and an order over it. *)
Definition big_x : tensor3 := replicate 2050 [[0]].
Definition big_y : matrix := replicate 2050 [0].
Definition big_perm : list nat := seq 0 2050.

End Demo.

(** What [__init__] establishes about the layers of a network. *)
Definition GRUNet_wf (self : GRUNet.t) : Prop :=
  Linear.in_features (GRUNet.fc self) = GRUNet.hidden_dim self ∧
  Linear.wf (GRUNet.fc self).
Definition LSTMNet_wf (self : LSTMNet.t) : Prop :=
  Linear.in_features (LSTMNet.fc self) = LSTMNet.hidden_dim self ∧
  Linear.wf (LSTMNet.fc self).

(** [Y] is the linear layer [fc] applied to the rectified last step of
    every sequence of [out]: one row of [out_features] entries per
    sequence. *)
Definition head_of (fc : Linear.t) (out : tensor3) (Y : matrix) : Prop :=
  length Y = length out ∧
  Forall (fun r => length r = Linear.out_features fc) Y ∧
  ∀ (b : nat) (steps : matrix), out !! b = Some steps →
    ∃ v, last steps = Some v ∧
         Y !! b = Some (zip_with (fun w c => Linear.dot (map (Qmax 0) v) w + c)
                                 (Linear.weight fc) (Linear.bias fc)).

(** Every file of the test pool has, under its name, the scaler fitted
    on its own consumption column. *)
Definition scalers_own (df_values : string -> matrix) (nb : Notebook) : Prop :=
  ∀ k, k ∈ odict_keys (test_x nb) →
    ∃ sc, MinMaxScaler.fit (reshape_col (column 0 (df_values k))) = Ok sc ∧
          label_scalers nb !! k = Some sc.

(** Every file of the test pool has labels and a label scaler. *)
Definition pools_agree (nb : Notebook) : Prop :=
  ∀ k, k ∈ odict_keys (test_x nb) →
    is_Some (test_y nb !! k) ∧ is_Some (label_scalers nb !! k).

(** The pair that the evaluator appends for the file [i]: the forward
    pass on the windows of [i] and the labels of [i], both taken back
    with the scaler stored under [i]. *)
Definition evaluated `{Model M} (model : M) (test_x : odict tensor3)
    (test_y : gmap string matrix) (label_scalers : gmap string MinMaxScaler.t)
    (i : string) (o t : vec) : Prop :=
  ∃ inp labs out h' sc,
    odict_get i test_x = Some inp ∧
    test_y !! i = Some labs ∧
    forward model inp (init_hidden model (length inp)) = Ok (out, h') ∧
    label_scalers !! i = Some sc ∧
    o = reshape_flat (MinMaxScaler.inverse_transform sc out) ∧
    t = reshape_flat (MinMaxScaler.inverse_transform sc labs).

(** A scaled value: between 0 and 1, bounds included. *)
Definition unit_interval (x : Q) : Prop := 0 <= x <= 1.

(** What the pools look like: as many labels as windows, windows of
    [lookback] rows, labels of one entry, in the training pool and under
    every name of the test pool. *)
Definition pool_shapes (nb : Notebook) : Prop :=
  length (train_y nb) = length (train_x nb) ∧
  Forall (fun w => length w = lookback) (train_x nb) ∧
  Forall (fun l => length l = 1%nat) (train_y nb) ∧
  ∀ k tx, odict_get k (test_x nb) = Some tx →
    Forall (fun w => length w = lookback) tx ∧
    ∃ ty, test_y nb !! k = Some ty ∧ length ty = length tx ∧
          Forall (fun l => length l = 1%nat) ty.

(** No name of the test pool holds an empty array of windows. *)
Definition test_entries_nonempty (nb : Notebook) : Prop :=
  ∀ k tx, odict_get k (test_x nb) = Some tx → tx ≠ [].

(** The test labels stored under a name are the tail of the labels of
    the file of that name, cut where the split cuts. *)
Definition test_labels_own (df_values : string -> matrix) (nb : Notebook) : Prop :=
  ∀ k ty, test_y nb !! k = Some ty →
    ∃ sc inputs labels,
      windows_of df_values k = Ok (sc, inputs, labels) ∧
      label_scalers nb !! k = Some sc ∧
      ty = slice_from (- Z.of_nat (int_tenth (length inputs))) labels.

(** ** More concrete inputs *)

Module Sample.

(** Two files' predictions and targets. *)
Definition outputs : list (list Q) := [[110]; [90; 80]].
Definition targets : list (list Q) := [[100]; [100; 100]].

(** A listing with a table of 40 rows in it. *)
Definition files_short : list string := ["a.csv"; "c.csv"]%string.

(** The notebook after the turn for the table of 101 rows: ten windows
    in the training pool, one under [a.csv] in the test pool. *)
Definition nb_a : Notebook :=
  Demo.get notebook0 (preprocess_file Demo.df_values notebook0 "a.csv").

(** The notebook after the turn for the table of 200 rows that follows
    it. *)
Definition nb_ae : Notebook :=
  Demo.get notebook0 (preprocess_file Demo.df_values nb_a "e.csv").

(** Row 90 of that table and the first label built from it. *)
Definition row90 : list Q := nth 90 (Demo.df_values "a.csv") [].
Definition label0 : list Q := nth 0 Demo.win_a.2 [].

(** The targets [evaluate] returns for the first file of [Demo.files]. *)
Definition targets_a : list Q := nth 0 Demo.ev.1.2 [].

(** A recurrent layer that answers with sequences without time step. *)
Definition gru_empty : GRUNet.t :=
  {| GRUNet.hidden_dim := 1; GRUNet.n_layers := 2;
     GRUNet.gru := fun x h => (map (fun _ => []) x, h);
     GRUNet.fc := Demo.fc1;
     GRUNet.junk := fun _ _ _ => 0 |}.
Definition lstm_empty : LSTMNet.t :=
  {| LSTMNet.hidden_dim := 1; LSTMNet.n_layers := 2;
     LSTMNet.lstm := fun x h => (map (fun _ => []) x, h);
     LSTMNet.fc := Demo.fc1;
     LSTMNet.junk := fun _ _ _ => 0;
     LSTMNet.junk' := fun _ _ _ => 0 |}.

(** An optimisation step that changes nothing and reports the loss 1,
    and samplers that draw the identity order over 2050 and over 10
    indices. *)
Definition optimise (m : GRUNet.t) (x : list (list (list Q))) (y : list (list Q))
    (h : list (list (list Q))) : result (GRUNet.t * list (list (list Q)) * Q) :=
  Ok (m, h, 1).
Definition draw_big (epoch : nat) : list nat := Demo.big_perm.
Definition draw_small (epoch : nat) : list nat := seq 0 10.

(** The state at the end of the first epoch over the pool of 2050. *)
Definition epoch1 : GRUNet.t * list (list (list Q)) * Q * nat :=
  Demo.get (Demo.gru_net, [], 0, O)
    (@train_epoch GRUNet.t GRUNet_Model optimise draw_big
       (train_loader Demo.big_x Demo.big_y) Demo.gru_net 1).

(** The first batch of a pass over that pool. *)
Definition batch0 : list (list (list Q)) * list (list Q) :=
  nth 0 (DataLoader.iter (train_loader Demo.big_x Demo.big_y) Demo.big_perm) ([], []).

End Sample.

(** * Properties *)

(** ** The label scaler *)

Section ScalerFacts.

Import MinMaxScaler.

Lemma column0_reshape_col (c : vec) : column 0 (reshape_col c) = c.
Proof.
  unfold column, reshape_col. rewrite map_map. cbn [nth].
  induction c as [|x c IH]; cbn; congruence.
Qed.

(** Fitting a one-column array: one entry per attribute. *)
Lemma fit_reshape_col (x : Q) (c : vec) :
  fit (reshape_col (x :: c)) =
  Ok (let p := fit_column (x :: c) in mk [p.1.1.1] [p.1.1.2] [p.1.2] [p.2]).
Proof.
  unfold fit. change (reshape_col (x :: c)) with ([x] :: reshape_col c).
  cbn [length seq map]. change ([x] :: reshape_col c) with (reshape_col (x :: c)).
  now rewrite column0_reshape_col.
Qed.

Lemma np_min_le_max (x : Q) (v : vec) : np_min x v <= np_max x v.
Proof.
  unfold np_min, np_max.
  assert (G : forall a b, a <= b -> fold_left Qmin v a <= fold_left Qmax v b).
  { induction v as [|y v IH]; intros a b Hab; cbn; [done|].
    apply IH. eapply Qle_trans; [apply Q.le_min_l|].
    eapply Qle_trans; [exact Hab|]. apply Q.le_max_l. }
  apply G, Qle_refl.
Qed.

Lemma handle_zeros_nonzero (r : Q) : ~ handle_zeros_in_scale r == 0.
Proof.
  unfold handle_zeros_in_scale. destruct (Qeq_bool r 0) eqn:E.
  - discriminate.
  - now apply Qeq_bool_neq.
Qed.

(** The scale of a fitted column is never zero. *)
Lemma fit_column_scale_nonzero (c : vec) : ~ (fit_column c).1.2 == 0.
Proof.
  destruct c as [|x v]; cbn; [discriminate|].
  intros E. apply (handle_zeros_nonzero (np_max x v - np_min x v)).
  set (d := handle_zeros_in_scale _) in *.
  destruct (Qeq_dec d 0) as [Hd|Hd]; [exact Hd|].
  exfalso. assert (E1 : (1 - 0) / d * d == 1) by (field; exact Hd).
  rewrite E in E1. discriminate E1.
Qed.

Lemma round_trip_entry (x s m : Q) : ~ s == 0 -> (x * s + m - m) / s == x.
Proof. intros Hs. field. exact Hs. Qed.

End ScalerFacts.

(** C4.  Round trip of the label scaler.  For a file whose consumption
    column is [column 0 (df_values file)], let [sc] be the scaler the
    notebook fits on that column alone.  If the fitted minimum lies
    strictly below the fitted maximum (the observed range is not
    degenerate), then for every value [x] of the column,
    [inverse_transform] after [transform] gives back [x], exactly in
    rational arithmetic. *)
Theorem label_scaler_round_trip
    (df_values : string -> matrix) (file : string) (sc : MinMaxScaler.t) (x : Q) :
  MinMaxScaler.fit (reshape_col (column 0 (df_values file))) = Ok sc ->
  Forall2 Qlt (MinMaxScaler.data_min_ sc) (MinMaxScaler.data_max_ sc) ->
  In x (column 0 (df_values file)) ->
  Forall2 (Forall2 Qeq)
    (MinMaxScaler.inverse_transform sc (MinMaxScaler.transform sc [[x]]))
    [[x]].
Proof.
  intros Hfit _ _.
  destruct (column 0 (df_values file)) as [|c0 c] eqn:Ec.
  - discriminate Hfit.
  - rewrite fit_reshape_col in Hfit. injection Hfit as <-.
    cbn [MinMaxScaler.transform MinMaxScaler.inverse_transform map
         MinMaxScaler.scale_ MinMaxScaler.min_ MinMaxScaler.zip3].
    repeat constructor.
    apply round_trip_entry, (fit_column_scale_nonzero (c0 :: c)).
Qed.

(** The labels the preprocessing stores are scaled with the scaler of
    the whole table; the label scaler has the attributes of its column
    0, so it takes a stored label back to the consumption it came from. *)
Lemma stored_label_round_trip (df : matrix) (sc lsc : MinMaxScaler.t) (r : vec) :
  MinMaxScaler.fit df = Ok sc ->
  MinMaxScaler.fit (reshape_col (column 0 df)) = Ok lsc ->
  r ≠ [] ->
  Forall2 (Forall2 Qeq)
    (MinMaxScaler.inverse_transform lsc
       (reshape_col [nth 0 (nth 0 (MinMaxScaler.transform sc [r]) []) 0]))
    [[nth 0 r 0]].
Proof.
  intros Hsc Hlsc Hr.
  destruct df as [|[|x r0] df']; try discriminate Hsc.
  unfold MinMaxScaler.fit in Hsc. cbn [length seq map] in Hsc.
  injection Hsc as <-.
  change (column 0 ((x :: r0) :: df')) with (x :: column 0 df') in *.
  rewrite fit_reshape_col in Hlsc. injection Hlsc as <-.
  destruct r as [|y r]; [done|].
  cbn [MinMaxScaler.transform MinMaxScaler.inverse_transform map reshape_col
       MinMaxScaler.scale_ MinMaxScaler.min_ MinMaxScaler.zip3 nth].
  repeat constructor.
  apply round_trip_entry, (fit_column_scale_nonzero (x :: column 0 df')).
Qed.

(** ** The error measure *)

Section SMAPE.

Lemma fold_left_Qplus (h : nat -> Q) (l : list nat) (a : Q) :
  fold_left (fun s i => s + h i) l a == a + Qsum (map h l).
Proof.
  revert a. induction l as [|i l IH]; intros a; cbn.
  - ring.
  - rewrite IH. unfold Qsum. ring.
Qed.

Lemma map_nth_seq {A B C} (F : A -> B -> C) (da : A) (db : B)
    (os : list A) (ts : list B) :
  length ts = length os ->
  map (fun i => F (nth i os da) (nth i ts db)) (seq 0 (length os)) = zip_with F os ts.
Proof.
  revert ts. induction os as [|o os IH]; intros [|t ts] Hlen; try discriminate; [done|].
  cbn [length seq map nth zip_with]. f_equal.
  rewrite <- seq_shift, map_map. apply IH. now injection Hlen.
Qed.

(** The aggregate is the plain average of the per-file means. *)
Lemma sMAPE_loop_average (outputs targets : list vec) :
  length targets = length outputs ->
  sMAPE_loop outputs targets ==
  Qsum (zip_with file_error outputs targets) / inject_Z (Z.of_nat (length outputs)).
Proof.
  intros Hlen. unfold sMAPE_loop.
  rewrite (fold_left_Qplus
             (fun i => np_mean (sMAPE_terms (nth i outputs []) (nth i targets []))
                       / inject_Z (Z.of_nat (length outputs)))).
  rewrite <- (map_map (fun i => file_error (nth i outputs []) (nth i targets []))
                      (fun e => e / inject_Z (Z.of_nat (length outputs)))).
  rewrite (map_nth_seq file_error [] [] outputs targets Hlen).
  generalize (zip_with file_error outputs targets) as es.
  generalize (inject_Z (Z.of_nat (length outputs))) as c.
  intros c es. induction es as [|e es IH]; cbn.
  - unfold Qdiv. ring.
  - unfold Qsum in *. cbn. rewrite Qplus_0_l in IH. rewrite IH. unfold Qdiv. ring.
Qed.

(** What the notebook computes is a quarter of that. *)
Lemma sMAPE_term_quarter (o t : Q) :
  ~ t + o == 0 ->
  Qabs (o - t) / (t + o) / 2 == sMAPE_term_spec o t / 4.
Proof. intros H. unfold sMAPE_term_spec. field. exact H. Qed.

End SMAPE.

(** C1.  The notebook's error measure on the toy pair.  With one test
    file whose single prediction inverse-scales to 110 and whose target
    inverse-scales to 100, [evaluate] returns 10/210/2 = 1/42 as sMAPE:
    the division by two is applied to the quotient, not to the
    denominator.  The value 10/105 that the measure's definition (and
    the specification) gives for this pair is not what is returned. *)
Theorem evaluate_sMAPE_toy_pair :
  exists outputs targets s,
    evaluate Demo.gru_net Demo.pool_x Demo.pool_y Demo.pool_scalers
      = Ok (outputs, targets, s)
    /\ Forall2 (Forall2 Qeq) outputs [[110]]
    /\ Forall2 (Forall2 Qeq) targets [[100]]
    /\ s == 1 # 42
    /\ ~ s == 10 # 105
    /\ sMAPE_term_spec 110 100 == 10 # 105.
Proof.
  eexists _, _, _. split; [vm_compute; reflexivity|].
  split; [repeat constructor|].
  split; [repeat constructor|].
  split; [reflexivity|].
  split; [discriminate|reflexivity].
Qed.

(** ** Hidden states *)

Lemma zero_new_replicate (junk : nat -> nat -> nat -> Q) (n b h : nat) :
  zero_ (tensor_new junk n b h) = replicate n (replicate b (replicate h 0)).
Proof.
  unfold zero_, tensor_new.
  assert (R : forall {A B} (f : A -> B) (y : B) (l : list A),
             (forall x, f x = y) -> map f l = replicate (length l) y).
  { intros A B f y l Hf. induction l as [|x l IH]; cbn; [done|]. now rewrite Hf, IH. }
  rewrite map_map.
  rewrite (R _ _ _ (replicate b (replicate h 0))), length_seq; [done|].
  intros i. rewrite map_map.
  rewrite (R _ _ _ (replicate h 0)), length_seq; [done|].
  intros j. rewrite map_map.
  rewrite (R _ _ _ 0), length_seq; [done|]. done.
Qed.

Lemma replicate_shape3 (x : Q) (n b h : nat) :
  has_shape3 (replicate n (replicate b (replicate h x))) n b h.
Proof.
  split; [apply length_replicate|].
  apply Forall_replicate. split; [apply length_replicate|].
  apply Forall_replicate, length_replicate.
Qed.

Lemma replicate_all_zero (n b h : nat) :
  all_zero (replicate n (replicate b (replicate h 0))).
Proof. unfold all_zero. do 3 apply Forall_replicate. reflexivity. Qed.

(** C7.  [init_hidden(batch_size)] is all zeros and has the declared
    shape: one tensor of shape [(n_layers, batch_size, hidden_dim)] for
    the GRU network, a pair of two such tensors for the LSTM network,
    whatever the fresh memory held before it was zeroed. *)
Theorem init_hidden_zero_shape (g : GRUNet.t) (l : LSTMNet.t) (batch_size : nat) :
  (has_shape3 (GRUNet.init_hidden g batch_size)
     (GRUNet.n_layers g) batch_size (GRUNet.hidden_dim g)
   /\ all_zero (GRUNet.init_hidden g batch_size))
  /\ (has_shape3 (LSTMNet.init_hidden l batch_size).1
        (LSTMNet.n_layers l) batch_size (LSTMNet.hidden_dim l)
      /\ all_zero (LSTMNet.init_hidden l batch_size).1)
  /\ (has_shape3 (LSTMNet.init_hidden l batch_size).2
        (LSTMNet.n_layers l) batch_size (LSTMNet.hidden_dim l)
      /\ all_zero (LSTMNet.init_hidden l batch_size).2).
Proof.
  unfold GRUNet.init_hidden, LSTMNet.init_hidden. cbn [fst snd].
  rewrite !zero_new_replicate.
  auto using replicate_shape3, replicate_all_zero.
Qed.

(** ** The window loop *)

Section Windows.

Variable L : nat.
Variable data : matrix.

(** After the turns for [i = L, ..., L + k - 1] the first [k] windows
    and labels are in place and the lengths are as allocated. *)
Lemma window_loop_prefix (inputs : tensor3) (labels : vec) (k : nat) :
  let r := fold_left (window_step L data) (seq L k) (inputs, labels) in
  length r.1 = length inputs /\ length r.2 = length labels /\
  forall i : nat, (i < k)%nat ->
    ((i < length inputs)%nat -> r.1 !! i = Some (slice i (i + L) data)) /\
    ((i < length labels)%nat ->
       r.2 !! i = Some (nth 0 (nth (i + L) data []) 0)).
Proof.
  induction k as [|k IH]; cbn zeta.
  - cbn. repeat split; intros; lia.
  - rewrite seq_S, fold_left_app. cbn [fold_left].
    destruct IH as (IH1 & IH2 & IH3).
    set (r := fold_left (window_step L data) (seq L k) (inputs, labels)) in *.
    unfold window_step. cbn [fst snd].
    replace (L + k - L)%nat with k by lia.
    rewrite (Nat.add_comm L k).
    rewrite !length_insert. repeat split; [done|done| |].
    + intros Hi. destruct (decide (i = k)) as [->|Hne].
      * now rewrite list_lookup_insert_eq by lia.
      * rewrite list_lookup_insert_ne by done. apply IH3; lia.
    + intros Hi. destruct (decide (i = k)) as [->|Hne].
      * now rewrite list_lookup_insert_eq by lia.
      * rewrite list_lookup_insert_ne by done. apply IH3; lia.
Qed.

Lemma slice_lookup {A} (a : list A) (i j : nat) :
  (j < L)%nat -> slice i (i + L) a !! j = a !! (i + j)%nat.
Proof.
  intros Hj. unfold slice. replace (i + L - i)%nat with L by lia.
  rewrite lookup_take_lt by done. apply lookup_drop.
Qed.

Lemma slice_length {A} (a : list A) (i : nat) :
  (i + L <= length a)%nat -> length (slice i (i + L) a) = L.
Proof.
  intros Hi. unfold slice. rewrite length_take, length_drop. lia.
Qed.

End Windows.

(** ** Exceptions and allocation *)

Lemma bind_Ok {A B} (a : A) (k : A -> result B) : (Ok a ≫= k) = k a.
Proof. reflexivity. Qed.

Lemma bind_Raise {A B} (e : exn) (k : A -> result B) : (Raise e ≫= k) = Raise e.
Proof. reflexivity. Qed.

Lemma fit_Ok (X : matrix) :
  (0 < length X)%nat -> (0 < ncols X)%nat -> exists sc, MinMaxScaler.fit X = Ok sc.
Proof.
  destruct X as [|[|x r] X]; cbn [length ncols]; try lia.
  intros _ _. unfold MinMaxScaler.fit. eauto.
Qed.

Lemma fit_Raise (X : matrix) :
  length X = 0%nat \/ ncols X = 0%nat ->
  MinMaxScaler.fit X = Raise ValueError_min_samples.
Proof.
  destruct X as [|[|x r] X]; cbn [length ncols]; try reflexivity.
  intros [?|?]; discriminate.
Qed.

Lemma np_zeros1_Ok (n : nat) : np_zeros1 (Z.of_nat n) = Ok (replicate n 0).
Proof.
  unfold np_zeros1. destruct (Z.ltb_spec (Z.of_nat n) 0); [lia|].
  now rewrite Nat2Z.id.
Qed.

Lemma np_zeros3_Ok (n l f : nat) :
  np_zeros3 (Z.of_nat n) l f = Ok (replicate n (replicate l (replicate f 0))).
Proof.
  unfold np_zeros3. destruct (Z.ltb_spec (Z.of_nat n) 0); [lia|].
  now rewrite Nat2Z.id.
Qed.

Lemma np_zeros3_Raise (n : Z) (l f : nat) :
  (n < 0)%Z -> np_zeros3 n l f = Raise ValueError_negative_dims.
Proof. intros Hn. unfold np_zeros3. now destruct (Z.ltb_spec n 0); [|lia]. Qed.

Lemma length_transform (sc : MinMaxScaler.t) (X : matrix) :
  length (MinMaxScaler.transform sc X) = length X.
Proof. apply length_map. Qed.

Lemma length_reshape_col (v : vec) : length (reshape_col v) = length v.
Proof. apply length_map. Qed.

Lemma lookup_reshape_col (v : vec) (i : nat) (x : Q) :
  v !! i = Some x -> reshape_col v !! i = Some [x].
Proof. intros Hx. unfold reshape_col. now rewrite list_lookup_fmap, Hx. Qed.

(** The windows of a file that is long enough, in closed form. *)
Lemma windows_of_Ok (df_values : string -> matrix) (file : string) :
  let df := df_values file in
  (lookback <= length df)%nat -> (0 < ncols df)%nat ->
  exists sc data label_sc inputs labels,
    MinMaxScaler.fit_transform df = Ok (sc, data) /\
    MinMaxScaler.fit (reshape_col (column 0 df)) = Ok label_sc /\
    length data = length df /\
    window_loop lookback data
      (replicate (length df - lookback) (replicate lookback (replicate (ncols df) 0)))
      (replicate (length df - lookback) 0) = (inputs, labels) /\
    windows_of df_values file = Ok (label_sc, inputs, reshape_col labels).
Proof.
  intros df HT HF.
  assert (Hrows : (0 < length df)%nat).
  { destruct df; [cbn in HF; lia|cbn; lia]. }
  destruct (fit_Ok df Hrows HF) as [sc Hsc].
  destruct (fit_Ok (reshape_col (column 0 df))) as [label_sc Hlsc].
  { unfold column. now rewrite length_reshape_col, length_map. }
  { destruct df as [|r df']; [cbn in Hrows; lia|cbn; lia]. }
  set (data := MinMaxScaler.transform sc df).
  assert (Hlen : length data = length df) by apply length_transform.
  destruct (window_loop lookback data
      (replicate (length df - lookback) (replicate lookback (replicate (ncols df) 0)))
      (replicate (length df - lookback) 0)) as [inputs labels] eqn:Hloop.
  exists sc, data, label_sc, inputs, labels.
  assert (Hft : MinMaxScaler.fit_transform df = Ok (sc, data)).
  { unfold MinMaxScaler.fit_transform. now rewrite Hsc. }
  repeat split; try done.
  unfold windows_of. fold df. rewrite Hft, bind_Ok. cbv beta iota zeta.
  rewrite Hlsc, bind_Ok. rewrite Hlen.
  rewrite <- Nat2Z.inj_sub by exact HT.
  rewrite np_zeros3_Ok, bind_Ok, np_zeros1_Ok, bind_Ok.
  now rewrite Hloop.
Qed.

(** C3.  The windower.  For a file of [T] rows with at least one column
    and [T > lookback], the scaled table [data] is cut into exactly
    [T - lookback] windows and as many labels; window [i] has
    [lookback] rows, its row [j] being scaled row [i + j], and label [i]
    is entry 0 of scaled row [i + lookback], unchanged. *)
Theorem windows_of_spec (df_values : string -> matrix) (file : string) :
  let df := df_values file in
  (lookback < length df)%nat -> (0 < ncols df)%nat ->
  exists sc data label_sc inputs labels,
    MinMaxScaler.fit_transform df = Ok (sc, data) /\
    length data = length df /\
    windows_of df_values file = Ok (label_sc, inputs, labels) /\
    length inputs = (length df - lookback)%nat /\
    length labels = (length df - lookback)%nat /\
    forall i : nat, (i < length df - lookback)%nat ->
      exists w row,
        inputs !! i = Some w /\
        length w = lookback /\
        (forall j : nat, (j < lookback)%nat -> w !! j = data !! (i + j)%nat) /\
        data !! (i + lookback)%nat = Some row /\
        labels !! i = Some [nth 0 row 0].
Proof.
  intros df HT HF.
  destruct (windows_of_Ok df_values file) as
    (sc & data & label_sc & inputs & labels & Hft & _ & Hlen & Hloop & Hw);
    [fold df; lia|exact HF|]. fold df in Hft, Hlen, Hloop.
  set (n := (length df - lookback)%nat) in *.
  pose proof (window_loop_prefix lookback data
                (replicate n (replicate lookback (replicate (ncols df) 0)))
                (replicate n 0) n) as Hp.
  cbn zeta in Hp. unfold window_loop in Hloop.
  replace (length data - lookback)%nat with n in Hloop by (subst n; lia).
  rewrite Hloop in Hp. cbn [fst snd] in Hp. rewrite !length_replicate in Hp.
  destruct Hp as (Hi & Hl & Hp).
  exists sc, data, label_sc, inputs, (reshape_col labels).
  repeat split; [exact Hft|exact Hlen|exact Hw|exact Hi| |].
  { now rewrite length_reshape_col. }
  intros i Hlt. destruct (Hp i Hlt) as [Hin Hlab].
  destruct (lookup_lt_is_Some_2 data (i + lookback)) as [row Hrow]; [subst n; lia|].
  exists (slice i (i + lookback) data), row.
  split; [now apply Hin|].
  split; [apply slice_length; subst n; lia|].
  split; [intros j Hj; now apply slice_lookup|].
  split; [exact Hrow|].
  apply lookup_reshape_col. rewrite (Hlab Hlt).
  now rewrite (nth_lookup_Some _ _ [] _ Hrow).
Qed.

(** ** The split *)

Lemma slice_bound_minus_0 (len : nat) : slice_bound len (- Z.of_nat 0) = 0%nat.
Proof. reflexivity. Qed.

Lemma slice_bound_minus_pos (len t : nat) :
  (0 < t)%nat -> slice_bound len (- Z.of_nat t) = (len - t)%nat.
Proof.
  intros Ht. unfold slice_bound.
  destruct (Z.ltb_spec (- Z.of_nat t) 0); lia.
Qed.

Lemma odict_get_set {A} (k : string) (v : A) (d : odict A) :
  odict_get k (odict_set k v d) = Some v.
Proof.
  induction d as [|[k' v'] d IH]; cbn.
  - now rewrite decide_True.
  - destruct (decide (k' = k)) as [->|Hne]; cbn.
    + now rewrite decide_True.
    + now rewrite decide_False.
Qed.

Lemma odict_get_set_ne {A} (k k' : string) (v : A) (d : odict A) :
  k ≠ k' -> odict_get k' (odict_set k v d) = odict_get k' d.
Proof.
  intros Hne. induction d as [|[k0 v0] d IH]; cbn.
  - now rewrite decide_False.
  - destruct (decide (k0 = k)) as [->|Hne0]; cbn.
    + now rewrite !decide_False.
    + destruct (decide (k0 = k')); [done|exact IH].
Qed.

(** The training pool after a split, whichever branch of the test on
    [len(train_x)] is taken, provided both pools have the same length. *)
Lemma split_train (nb : Notebook) (file : string)
    (inputs : tensor3) (labels : matrix) :
  length (train_y nb) = length (train_x nb) ->
  let k := (- Z.of_nat (int_tenth (length inputs)))%Z in
  train_x (split nb file inputs labels) = train_x nb ++ slice_to k inputs /\
  train_y (split nb file inputs labels) = train_y nb ++ slice_to k labels.
Proof.
  intros Hlen k. unfold split. fold k.
  destruct (decide (length (train_x nb) = 0%nat)) as [H0|H0]; cbn; [|done].
  rewrite H0 in Hlen.
  apply nil_length_inv in H0, Hlen. now rewrite H0, Hlen.
Qed.

Lemma split_test (nb : Notebook) (file : string)
    (inputs : tensor3) (labels : matrix) :
  let k := (- Z.of_nat (int_tenth (length inputs)))%Z in
  odict_get file (test_x (split nb file inputs labels)) = Some (slice_from k inputs) /\
  test_y (split nb file inputs labels) !! file = Some (slice_from k labels) /\
  label_scalers (split nb file inputs labels) = label_scalers nb.
Proof.
  intros k. unfold split. fold k.
  destruct (decide (length (train_x nb) = 0%nat)); cbn;
    now rewrite odict_get_set, lookup_insert_eq.
Qed.

(** What [windows_of] returns has the lengths it allocated. *)
Lemma windows_of_lengths (df_values : string -> matrix) (file : string)
    (sc : MinMaxScaler.t) (inputs : tensor3) (labels : matrix) :
  windows_of df_values file = Ok (sc, inputs, labels) ->
  (lookback <= length (df_values file))%nat /\
  length inputs = (length (df_values file) - lookback)%nat /\
  length labels = length inputs.
Proof.
  unfold windows_of. set (df := df_values file).
  unfold MinMaxScaler.fit_transform.
  destruct (MinMaxScaler.fit df) as [s|e]; [|discriminate].
  rewrite !bind_Ok. cbv beta iota zeta.
  destruct (MinMaxScaler.fit (reshape_col (column 0 df))) as [ls|e]; [|discriminate].
  rewrite bind_Ok, length_transform.
  destruct (Z.ltb_spec (Z.of_nat (length df) - Z.of_nat lookback) 0) as [Hneg|Hpos].
  { rewrite np_zeros3_Raise by exact Hneg. discriminate. }
  rewrite <- Nat2Z.inj_sub by lia.
  rewrite np_zeros3_Ok, bind_Ok, np_zeros1_Ok, bind_Ok.
  set (n := (length df - lookback)%nat).
  pose proof (window_loop_prefix lookback (MinMaxScaler.transform s df)
                (replicate n (replicate lookback (replicate (ncols df) 0)))
                (replicate n 0) n) as Hp.
  cbn zeta in Hp. unfold window_loop. rewrite length_transform. fold n.
  destruct (fold_left _ _ _) as [i l]. cbn [fst snd] in Hp.
  rewrite !length_replicate in Hp. destruct Hp as (Hi & Hl & _).
  intros [= <- <- <-]. rewrite length_reshape_col. lia.
Qed.




(** ** Files that are too short *)


(** ** The forward pass *)

Lemma mapM_Ok {A B} (f : A -> result B) (g : A -> B) (l : list A) :
  Forall (fun x => f x = Ok (g x)) l -> mapM f l = Ok (map g l).
Proof.
  induction 1 as [|x l Hx _ IH]; [done|].
  cbn [mapM]. now rewrite Hx, bind_Ok, IH.
Qed.

(** The two statements after the recurrent layer, on an output of
    shape [(B, L, in_features)] with [L > 0]. *)
Lemma head_Ok (fc : Linear.t) (out : tensor3) (B L : nat) :
  (0 < L)%nat -> Linear.wf fc ->
  has_shape3 out B L (Linear.in_features fc) ->
  exists Y,
    (last ← last_step out; Linear.apply fc (relu last)) = Ok Y /\ head_of fc out Y.
Proof.
  intros HL [Hw Hb] [HB Hout].
  set (row := fun v : vec => zip_with (fun w c => Linear.dot (map (Qmax 0) v) w + c)
                                      (Linear.weight fc) (Linear.bias fc)).
  assert (H1 : last_step out = Ok (map (fun steps => default [] (last steps)) out)).
  { apply mapM_Ok. eapply Forall_impl; [exact Hout|]. intros steps [Hlen _].
    unfold getitem_last. destruct (last steps) eqn:E; [done|].
    apply last_None in E. subst steps. cbn in Hlen. lia. }
  assert (H2 : Linear.apply fc (relu (map (fun steps => default [] (last steps)) out))
               = Ok (map (fun steps => row (default [] (last steps))) out)).
  { unfold Linear.apply, relu. rewrite map_map.
    rewrite <- (map_map (fun steps => map (Qmax 0) (default [] (last steps)))
                        (fun r => zip_with (fun w c => Linear.dot r w + c)
                                           (Linear.weight fc) (Linear.bias fc))).
    apply mapM_Ok. apply Forall_map. eapply Forall_impl; [exact Hout|].
    intros steps [Hlen Hrows]. cbn beta. unfold Linear.apply_row.
    rewrite decide_True; [done|]. rewrite length_map.
    destruct (last steps) as [v|] eqn:E.
    - cbn. apply last_Some_elem_of in E. rewrite Forall_forall in Hrows. now apply Hrows.
    - apply last_None in E. subst steps. cbn in Hlen. lia. }
  exists (map (fun steps => row (default [] (last steps))) out).
  split; [now rewrite H1, bind_Ok|].
  split; [apply length_map|]. split.
  - apply Forall_map, Forall_true. intros steps. unfold row.
    rewrite length_zip_with. lia.
  - intros b steps Hb'. rewrite list_lookup_fmap, Hb'. cbn.
    rewrite Forall_lookup in Hout. destruct (Hout _ _ Hb') as [Hlen _].
    destruct (last steps) as [v|] eqn:E; [eauto|].
    apply last_None in E. subst steps. cbn in Hlen. lia.
Qed.

(** C6, as the networks have it.  For either network, built as
    [__init__] builds it, and for a batch on which the recurrent layer
    answers with an output of shape [(batch_size, L, hidden_dim)],
    [L > 0]: [forward] returns the hidden state of the recurrent layer
    and an array of [batch_size] rows of [out_features] entries each
    (one entry, for the networks [train] builds), row [b] being the
    linear layer applied to the rectified last step of sequence [b]. *)
Theorem forward_head (g : GRUNet.t) (l : LSTMNet.t) (x : tensor3) (L : nat)
    (hg : tensor3) (hl : tensor3 * tensor3) :
  (0 < L)%nat ->
  GRUNet_wf g -> LSTMNet_wf l ->
  has_shape3 (GRUNet.gru g x hg).1 (length x) L (GRUNet.hidden_dim g) ->
  has_shape3 (LSTMNet.lstm l x hl).1 (length x) L (LSTMNet.hidden_dim l) ->
  (exists Y, GRUNet.forward g x hg = Ok (Y, (GRUNet.gru g x hg).2) /\
             length Y = length x /\
             head_of (GRUNet.fc g) (GRUNet.gru g x hg).1 Y) /\
  (exists Y, LSTMNet.forward l x hl = Ok (Y, (LSTMNet.lstm l x hl).2) /\
             length Y = length x /\
             head_of (LSTMNet.fc l) (LSTMNet.lstm l x hl).1 Y).
Proof.
  intros HL [Hg1 Hg2] [Hl1 Hl2] Hg Hl. split.
  - unfold GRUNet.forward. destruct (GRUNet.gru g x hg) as [out h'].
    cbn [fst snd] in *. rewrite <- Hg1 in Hg.
    destruct (head_Ok _ _ _ _ HL Hg2 Hg) as (Y & HY & Hhead).
    exists Y. split; [|split; [|exact Hhead]].
    + destruct (last_step out) as [last|e]; [|discriminate HY].
      unfold mbind, result_bind in HY |- *. now rewrite HY.
    + destruct Hhead as [-> _]. apply Hg.
  - unfold LSTMNet.forward. destruct (LSTMNet.lstm l x hl) as [out h'].
    cbn [fst snd] in *. rewrite <- Hl1 in Hl.
    destruct (head_Ok _ _ _ _ HL Hl2 Hl) as (Y & HY & Hhead).
    exists Y. split; [|split; [|exact Hhead]].
    + destruct (last_step out) as [last|e]; [|discriminate HY].
      unfold mbind, result_bind in HY |- *. now rewrite HY.
    + destruct Hhead as [-> _]. apply Hl.
Qed.

(** ** The batch iterator *)

Lemma batch_size_pos : (0 < batch_size)%nat.
Proof. unfold batch_size. lia. Qed.

Section BatchSampler.

Variable bs : nat.
Hypothesis bs_pos : (0 < bs)%nat.

(** With [drop_last] the sampler cuts [batch ++ sampler] into full
    batches and leaves a remainder shorter than a batch out. *)
Lemma batch_sampler_drop (sampler batch : list nat) :
  (length batch < bs)%nat ->
  exists dropped,
    concat (DataLoader.batch_sampler bs true sampler batch) ++ dropped
      = batch ++ sampler /\
    Forall (fun b => length b = bs) (DataLoader.batch_sampler bs true sampler batch) /\
    (length dropped < bs)%nat.
Proof.
  revert batch. induction sampler as [|idx sampler IH]; intros batch Hb.
  - exists batch. cbn. rewrite andb_false_r. cbn. now rewrite app_nil_r.
  - cbn [DataLoader.batch_sampler].
    destruct (decide (length (batch ++ [idx]) = bs)) as [Hfull|Hpart].
    + destruct (IH [] bs_pos) as (dropped & Hcat & Hall & Hd).
      exists dropped. cbn [concat app] in *.
      split; [|split; [now constructor|exact Hd]].
      now rewrite <- !app_assoc, Hcat.
    + destruct (IH (batch ++ [idx])) as (dropped & Hcat & Hall & Hd).
      { rewrite length_app in *. cbn in *. lia. }
      exists dropped. rewrite Hcat, <- app_assoc. done.
Qed.

Lemma length_concat_full (chunks : list (list nat)) :
  Forall (fun b => length b = bs) chunks ->
  length (concat chunks) = (bs * length chunks)%nat.
Proof.
  induction 1 as [|b chunks Hb _ IH]; cbn; [lia|].
  rewrite length_app, IH, Hb. lia.
Qed.

(** Hence the number of batches and the size of the remainder. *)
Lemma batch_sampler_count (perm : list nat) :
  exists dropped,
    concat (DataLoader.batch_sampler bs true perm []) ++ dropped = perm /\
    Forall (fun b => length b = bs) (DataLoader.batch_sampler bs true perm []) /\
    length (DataLoader.batch_sampler bs true perm []) = (length perm / bs)%nat /\
    length dropped = (length perm mod bs)%nat.
Proof.
  destruct (batch_sampler_drop perm [] bs_pos) as (dropped & Hcat & Hall & Hd).
  exists dropped. cbn [app] in Hcat.
  assert (Hlen : length perm =
                 (bs * length (DataLoader.batch_sampler bs true perm [])
                  + length dropped)%nat).
  { rewrite <- Hcat at 1. now rewrite length_app, length_concat_full. }
  split; [exact Hcat|]. split; [exact Hall|]. split.
  - eapply Nat.div_unique; [exact Hd|exact Hlen].
  - eapply Nat.mod_unique; [exact Hd|exact Hlen].
Qed.

End BatchSampler.

(** C10.  One pass over the training loader.  The pool holds [N]
    windows with their labels and [perm] is the order the sampler drew,
    a permutation of [0 .. N-1].  The pass yields [N / 1024] batches,
    which is also [len(train_loader)]; every batch holds exactly 1024
    windows and 1024 labels, gathered at consecutive runs of [perm]; the
    last [N mod 1024] indices of [perm] occur in no batch. *)
Theorem train_loader_batches (train_x : tensor3) (train_y : matrix) (perm : list nat) :
  length train_y = length train_x ->
  perm ≡ₚ seq 0 (length train_x) ->
  let N := length train_x in
  let tl := train_loader train_x train_y in
  let batches := DataLoader.iter tl perm in
  batch_size = 1024%nat /\
  length batches = (N / batch_size)%nat /\
  DataLoader.len tl = (N / batch_size)%nat /\
  Forall (fun b => length b.1 = batch_size /\ length b.2 = batch_size) batches /\
  exists chunks dropped,
    batches = map (DataLoader.collate tl) chunks /\
    concat chunks ++ dropped = perm /\
    length dropped = (N mod batch_size)%nat /\
    forall i : nat, i ∈ dropped -> Forall (fun b => i ∉ b) chunks.
Proof.
  intros Hy Hperm N tl batches.
  destruct (batch_sampler_count batch_size batch_size_pos perm)
    as (dropped & Hcat & Hall & Hcount & Hdrop).
  assert (HN : length perm = N).
  { rewrite Hperm. apply length_seq. }
  rewrite HN in Hcount, Hdrop.
  split; [reflexivity|]. split; [|split; [|split]].
  - unfold batches, DataLoader.iter. now rewrite length_map.
  - reflexivity.
  - unfold batches, DataLoader.iter. apply Forall_map.
    eapply Forall_impl; [exact Hall|]. intros b Hb. cbn.
    now rewrite !length_map.
  - exists (DataLoader.batch_sampler batch_size true perm []), dropped.
    split; [reflexivity|]. split; [exact Hcat|]. split; [exact Hdrop|].
    intros i Hi. apply Forall_forall. intros b Hb Hib.
    assert (Hnd : NoDup perm).
    { rewrite Hperm. apply NoDup_seq. }
    rewrite <- Hcat in Hnd. apply NoDup_app in Hnd as (_ & Hdisj & _).
    apply (Hdisj i); [|exact Hi].
    apply list_elem_of_In, in_concat. exists b.
    split; now apply list_elem_of_In.
Qed.

(** ** The trainer's count of batches *)

Section TrainCounter.

Context {M : Type} `{Model M}.
Variable optimise : M -> tensor3 -> matrix -> hidden -> result (M * hidden * Q).
Variable draw : nat -> list nat.

Lemma train_batches_counter (batches : list (tensor3 * matrix))
  (st st' : M * hidden * Q * nat) :
for_each (train_batch optimise) batches st = Ok st' ->
st'.2 = (st.2 + length batches)%nat.
Proof.
revert st. induction batches as [|b batches IH]; intros st.
- intros [= <-]. cbn. lia.
- cbn [for_each]. destruct (train_batch optimise st b) as [st1|e] eqn:E; [|discriminate].
  rewrite bind_Ok. intros Hrest. rewrite (IH _ Hrest).
  destruct st as [[[m h] a] c]. unfold train_batch in E.
  destruct (optimise m b.1 b.2 h) as [[[m1 h1] l1]|e]; [|discriminate].
  rewrite bind_Ok in E. injection E as <-. cbn. lia.
Qed.

(** X16.  An epoch that ends without exception has counted [N / 1024]
    batches, [N] being the number of indices the sampler drew. *)
Lemma train_epoch_counter (train_x : tensor3) (train_y : matrix) (model : M)
  (epoch : nat) (st : M * hidden * Q * nat) :
train_epoch optimise draw (train_loader train_x train_y) model epoch = Ok st ->
st.2 = (length (draw epoch) / batch_size)%nat.
Proof.
unfold train_epoch. intros Hst.
apply train_batches_counter in Hst. cbn [snd] in Hst. rewrite Hst. cbn [plus].
unfold DataLoader.iter. rewrite length_map.
destruct (batch_sampler_count batch_size batch_size_pos (draw epoch))
  as (dropped & _ & _ & Hcount & _).
exact Hcount.
Qed.

End TrainCounter.

(** ** Which scaler the evaluator uses *)

Lemma windows_of_scaler (df_values : string -> matrix) (file : string)
    (sc : MinMaxScaler.t) (inputs : tensor3) (labels : matrix) :
  windows_of df_values file = Ok (sc, inputs, labels) ->
  MinMaxScaler.fit (reshape_col (column 0 (df_values file))) = Ok sc.
Proof.
  unfold windows_of. set (df := df_values file).
  destruct (MinMaxScaler.fit_transform df) as [[s data]|e]; [|discriminate].
  rewrite bind_Ok. cbv beta iota zeta.
  destruct (MinMaxScaler.fit (reshape_col (column 0 df))) as [ls|e]; [|discriminate].
  rewrite bind_Ok.
  destruct (np_zeros3 _ _ _) as [i|e]; [|discriminate]. rewrite bind_Ok.
  destruct (np_zeros1 _) as [l|e]; [|discriminate]. rewrite bind_Ok.
  destruct (window_loop _ _ _ _). now intros [= -> _ _].
Qed.

Lemma odict_keys_set {A} (k k' : string) (v : A) (d : odict A) :
  k' ∈ odict_keys (odict_set k v d) -> k' = k \/ k' ∈ odict_keys d.
Proof.
  unfold odict_keys. induction d as [|[k0 v0] d IH]; cbn.
  - intros ->%list_elem_of_singleton. now left.
  - destruct (decide (k0 = k)) as [->|Hne]; cbn.
    + intros [->|Hin]%elem_of_cons; [now left|]. right. now apply elem_of_cons; right.
    + intros [->|Hin]%elem_of_cons.
      * right. now apply elem_of_cons; left.
      * destruct (IH Hin) as [->|Hd]; [now left|]. right. now apply elem_of_cons; right.
Qed.

(** The turn of the loop for [file] stores the scaler fitted on the
    consumption column of [file] under the name [file], and leaves the
    entries of all other names as they are. *)
Lemma preprocess_file_label_scalers (df_values : string -> matrix)
    (nb nb' : Notebook) (file : string) :
  preprocess_file df_values nb file = Ok nb' ->
  (exists sc, MinMaxScaler.fit (reshape_col (column 0 (df_values file))) = Ok sc /\
              label_scalers nb' = <[file := sc]> (label_scalers nb)) /\
  (forall k, k ∈ odict_keys (test_x nb') -> k = file \/ k ∈ odict_keys (test_x nb)).
Proof.
  unfold preprocess_file.
  destruct (windows_of df_values file) as [[[sc inputs] labels]|e] eqn:Hw; [|discriminate].
  rewrite bind_Ok. intros [= <-]. split.
  - exists sc. split; [now apply windows_of_scaler in Hw|].
    unfold split. now destruct (decide _).
  - intros k. unfold split. destruct (decide _); cbn; apply odict_keys_set.
Qed.

Section OwnScaler.

Variable df_values : string -> matrix.

Lemma preprocess_scalers_own (files : list string) (nb nb' : Notebook) :
  scalers_own df_values nb -> preprocess df_values files nb = Ok nb' ->
  scalers_own df_values nb'.
Proof.
  unfold preprocess. revert nb. induction files as [|file files IH]; intros nb Hinv.
  - now intros [= <-].
  - cbn [for_each]. destruct (skipped file).
    + rewrite bind_Ok. now apply IH.
    + destruct (preprocess_file df_values nb file) as [nb1|e] eqn:Hf; [|discriminate].
      rewrite bind_Ok. apply IH.
      destruct (preprocess_file_label_scalers _ _ _ _ Hf) as ((sc & Hsc & Hls) & Hkeys).
      intros k Hk. destruct (decide (k = file)) as [->|Hne].
      * exists sc. split; [exact Hsc|]. rewrite Hls. apply lookup_insert_eq.
      * destruct (Hkeys k Hk) as [->|Hin]; [done|].
        destruct (Hinv k Hin) as (sc' & Hsc' & Hl'). exists sc'.
        split; [exact Hsc'|]. rewrite Hls, lookup_insert_ne; done.
Qed.

End OwnScaler.

Section EvaluateLoop.

Context {M : Type} `{Model M}.
Variables (model : M) (tx : odict tensor3) (ty : gmap string matrix)
          (ls : gmap string MinMaxScaler.t).

Lemma getitem_Ok {A} (o : option A) (k : string) (a : A) :
  getitem o k = Ok a -> o = Some a.
Proof. destruct o; cbn; congruence. Qed.

Lemma check_array_Ok_inv (X Y : matrix) :
  MinMaxScaler.check_array X = Ok Y -> Y = X.
Proof. destruct X as [|[|x r] X]; cbn; congruence. Qed.

Lemma evaluate_file_Ok (acc acc' : list vec * list vec) (i : string) :
  evaluate_file model tx ty ls acc i = Ok acc' ->
  exists o t, acc' = (acc.1 ++ [o], acc.2 ++ [t]) /\ evaluated model tx ty ls i o t.
Proof.
  unfold evaluate_file.
  destruct (getitem (odict_get i tx) i) as [inp|e] eqn:E1; [|discriminate].
  rewrite bind_Ok.
  destruct (getitem (ty !! i) i) as [labs|e] eqn:E2; [|discriminate].
  rewrite bind_Ok. cbv zeta.
  destruct (forward model inp (init_hidden model (length inp))) as [[out h']|e] eqn:E3;
    [|discriminate].
  rewrite bind_Ok. cbv beta iota.
  destruct (getitem (ls !! i) i) as [sc|e] eqn:E4; [|discriminate].
  rewrite !bind_Ok. unfold MinMaxScaler.inverse_transform_call.
  destruct (MinMaxScaler.check_array out) as [out1|e] eqn:E5; [|discriminate].
  rewrite !bind_Ok.
  destruct (MinMaxScaler.check_array labs) as [labs1|e] eqn:E6; [|discriminate].
  rewrite !bind_Ok. intros [= <-].
  apply check_array_Ok_inv in E5, E6. subst out1 labs1.
  apply getitem_Ok in E1, E2, E4.
  eexists _, _. split; [reflexivity|]. exists inp, labs, out, h', sc. done.
Qed.

(** The loop appends one pair per key, in the order of the keys. *)
Lemma evaluate_loop_Ok (keys : list string) (acc acc' : list vec * list vec) :
  for_each (evaluate_file model tx ty ls) keys acc = Ok acc' ->
  exists os ts,
    acc' = (acc.1 ++ os, acc.2 ++ ts) /\
    length os = length keys /\ length ts = length keys /\
    forall j i, keys !! j = Some i ->
      exists o t, os !! j = Some o /\ ts !! j = Some t /\ evaluated model tx ty ls i o t.
Proof.
  revert acc. induction keys as [|i keys IH]; intros acc.
  - intros [= <-]. exists [], []. rewrite !app_nil_r. destruct acc. done.
  - cbn [for_each].
    destruct (evaluate_file model tx ty ls acc i) as [acc1|e] eqn:E; [|discriminate].
    rewrite bind_Ok. intros Hrest.
    destruct (evaluate_file_Ok _ _ _ E) as (o & t & -> & Hev).
    destruct (IH _ Hrest) as (os & ts & -> & Hos & Hts & Hall).
    exists (o :: os), (t :: ts). cbn [fst snd length]. rewrite <- !app_assoc.
    split; [done|]. split; [lia|]. split; [lia|].
    intros [|j] k; cbn.
    + intros [= <-]. eauto.
    + apply Hall.
Qed.

End EvaluateLoop.

(** C5.  After the preprocessing of any list of directory entries,
    [evaluate] on the pools it left takes the predictions and the
    labels of every file of the test pool back to consumption values
    with the scaler stored under the name of that same file, and that
    scaler is the one fitted on the consumption column of that file
    alone.  The mapping is written by the turn of the preprocessing
    loop for a file under the name of that file only; [evaluate]
    receives it as an argument and only looks names up in it. *)
Theorem evaluate_own_scaler {M : Type} `{Model M} (df_values : string -> matrix)
    (files : list string) (model : M) (nb : Notebook)
    (outputs targets : list vec) (s : Q) :
  preprocess df_values files notebook0 = Ok nb ->
  evaluate model (test_x nb) (test_y nb) (label_scalers nb) = Ok (outputs, targets, s) ->
  (forall j file, odict_keys (test_x nb) !! j = Some file ->
     exists sc inp labs out h',
       MinMaxScaler.fit (reshape_col (column 0 (df_values file))) = Ok sc /\
       label_scalers nb !! file = Some sc /\
       odict_get file (test_x nb) = Some inp /\
       test_y nb !! file = Some labs /\
       forward model inp (init_hidden model (length inp)) = Ok (out, h') /\
       outputs !! j = Some (reshape_flat (MinMaxScaler.inverse_transform sc out)) /\
       targets !! j = Some (reshape_flat (MinMaxScaler.inverse_transform sc labs))) /\
  length outputs = length (odict_keys (test_x nb)) /\
  length targets = length (odict_keys (test_x nb)) /\
  (forall nb0 file nb1 k,
     preprocess_file df_values nb0 file = Ok nb1 -> k ≠ file ->
     label_scalers nb1 !! k = label_scalers nb0 !! k).
Proof.
  intros Hpre Hev.
  assert (Hown : scalers_own df_values nb).
  { eapply preprocess_scalers_own; [|exact Hpre].
    intros k Hk. cbn in Hk. now apply elem_of_nil in Hk. }
  unfold evaluate in Hev.
  destruct (for_each _ _ _) as [[os ts]|e] eqn:Hloop; [|discriminate].
  rewrite bind_Ok in Hev. injection Hev as <- <- _.
  destruct (evaluate_loop_Ok _ _ _ _ _ _ _ Hloop) as (os' & ts' & [= -> ->] & Hos & Hts & Hall).
  cbn [fst snd app]. split; [|split; [exact Hos|split; [exact Hts|]]].
  - intros j file Hj.
    destruct (Hall j file Hj) as (o & t & Ho & Ht & inp & labs & out & h' & sc & Hev).
    destruct Hev as (H1 & H2 & H3 & H4 & -> & ->).
    destruct (Hown file) as (sc' & Hfit & Hl).
    { apply list_elem_of_lookup. eauto. }
    rewrite Hl in H4. injection H4 as <-.
    exists sc', inp, labs, out, h'. done.
  - intros nb0 file nb1 k Hf Hne.
    destruct (preprocess_file_label_scalers _ _ _ _ Hf) as ((sc & _ & ->) & _).
    now rewrite lookup_insert_ne.
Qed.

(** ** The evaluator returns *)

Lemma odict_get_keys {A} (k : string) (d : odict A) :
  k ∈ odict_keys d -> is_Some (odict_get k d).
Proof.
  unfold odict_keys. induction d as [|[k' v'] d IH]; cbn.
  - intros Hk. now apply elem_of_nil in Hk.
  - intros Hk. destruct (decide (k' = k)) as [->|Hne]; [eauto|].
    apply elem_of_cons in Hk as [->|Hk]; [done|]. now apply IH.
Qed.

Lemma preprocess_file_pools_agree (df_values : string -> matrix)
    (nb nb' : Notebook) (file : string) :
  pools_agree nb -> preprocess_file df_values nb file = Ok nb' -> pools_agree nb'.
Proof.
  intros Hinv. unfold preprocess_file.
  destruct (windows_of df_values file) as [[[sc inputs] labels]|e]; [|discriminate].
  rewrite bind_Ok. cbv zeta. intros [= <-] k.
  unfold split, store_label_scaler. destruct (decide _); cbn;
    intros [->|Hk]%odict_keys_set;
    rewrite ?lookup_insert_eq; try (split; eauto; fail);
    (destruct (decide (file = k)) as [->|Hne];
      [rewrite !lookup_insert_eq; split; eauto
      |rewrite !lookup_insert_ne by done; now apply Hinv]).
Qed.

Lemma preprocess_pools_agree (df_values : string -> matrix)
    (files : list string) (nb nb' : Notebook) :
  pools_agree nb -> preprocess df_values files nb = Ok nb' -> pools_agree nb'.
Proof.
  unfold preprocess. revert nb. induction files as [|file files IH]; intros nb Hinv.
  - now intros [= <-].
  - cbn [for_each]. destruct (skipped file).
    + rewrite bind_Ok. now apply IH.
    + destruct (preprocess_file df_values nb file) as [nb1|e] eqn:Hf; [|discriminate].
      rewrite bind_Ok. apply IH. eapply preprocess_file_pools_agree; eauto.
Qed.

(** ** The statements on concrete inputs *)


(** C6: on a batch of two windows either network returns an array of
    shape [(2, 1)], not [(2,)]. *)
Lemma forward_shape_counterexample :
  match GRUNet.forward Demo.gru_net Demo.batch2 (GRUNet.init_hidden Demo.gru_net 2),
        LSTMNet.forward Demo.lstm_net Demo.batch2 (LSTMNet.init_hidden Demo.lstm_net 2) with
  | Ok (Y, _), Ok (Y', _) =>
      shape2 Y = [2; 1]%nat /\ shape2 Y' = [2; 1]%nat /\
      shape2 Y ≠ [length Demo.batch2] /\ shape2 Y' ≠ [length Demo.batch2]
  | _, _ => False
  end.
Proof. vm_compute. done. Qed.


(** C4 on the table of 101 rows and its value 103. *)
Lemma label_scaler_round_trip_witness :
  MinMaxScaler.fit (reshape_col (column 0 (Demo.df_values "a.csv"))) = Ok Demo.win_a.1.1 /\
  Forall2 Qlt (MinMaxScaler.data_min_ Demo.win_a.1.1) (MinMaxScaler.data_max_ Demo.win_a.1.1) /\
  In 103 (column 0 (Demo.df_values "a.csv")) /\
  Forall2 (Forall2 Qeq)
    (MinMaxScaler.inverse_transform Demo.win_a.1.1
       (MinMaxScaler.transform Demo.win_a.1.1 [[103]]))
    [[103]].
Proof.
  assert (H1 : MinMaxScaler.fit (reshape_col (column 0 (Demo.df_values "a.csv")))
               = Ok Demo.win_a.1.1) by (vm_compute; reflexivity).
  assert (H2 : Forall2 Qlt (MinMaxScaler.data_min_ Demo.win_a.1.1)
                           (MinMaxScaler.data_max_ Demo.win_a.1.1))
    by (vm_compute; repeat constructor).
  assert (H3 : In 103 (column 0 (Demo.df_values "a.csv")))
    by (vm_compute; right; left; reflexivity).
  exact (conj H1 (conj H2 (conj H3
           (label_scaler_round_trip Demo.df_values "a.csv" Demo.win_a.1.1 103 H1 H2 H3)))).
Defined.

(** C3 on the table of 101 rows. *)
Lemma windows_of_spec_witness :
  (lookback < length (Demo.df_values "a.csv"))%nat /\
  (0 < ncols (Demo.df_values "a.csv"))%nat /\
  exists sc data label_sc inputs labels,
    MinMaxScaler.fit_transform (Demo.df_values "a.csv") = Ok (sc, data) /\
    length data = length (Demo.df_values "a.csv") /\
    windows_of Demo.df_values "a.csv" = Ok (label_sc, inputs, labels) /\
    length inputs = (length (Demo.df_values "a.csv") - lookback)%nat /\
    length labels = (length (Demo.df_values "a.csv") - lookback)%nat /\
    forall i : nat, (i < length (Demo.df_values "a.csv") - lookback)%nat ->
      exists w row,
        inputs !! i = Some w /\
        length w = lookback /\
        (forall j : nat, (j < lookback)%nat -> w !! j = data !! (i + j)%nat) /\
        data !! (i + lookback)%nat = Some row /\
        labels !! i = Some [nth 0 row 0].
Proof.
  assert (H1 : (lookback < length (Demo.df_values "a.csv"))%nat) by (vm_compute; lia).
  assert (H2 : (0 < ncols (Demo.df_values "a.csv"))%nat) by (vm_compute; lia).
  exact (conj H1 (conj H2 (windows_of_spec Demo.df_values "a.csv" H1 H2))).
Defined.




(** C6 on a batch of two windows. *)
Lemma forward_head_witness :
  (0 < 1)%nat /\
  GRUNet_wf Demo.gru_net /\ LSTMNet_wf Demo.lstm_net /\
  has_shape3 (GRUNet.gru Demo.gru_net Demo.batch2 (GRUNet.init_hidden Demo.gru_net 2)).1
    (length Demo.batch2) 1 (GRUNet.hidden_dim Demo.gru_net) /\
  has_shape3 (LSTMNet.lstm Demo.lstm_net Demo.batch2 (LSTMNet.init_hidden Demo.lstm_net 2)).1
    (length Demo.batch2) 1 (LSTMNet.hidden_dim Demo.lstm_net) /\
  (exists Y,
     GRUNet.forward Demo.gru_net Demo.batch2 (GRUNet.init_hidden Demo.gru_net 2)
       = Ok (Y, (GRUNet.gru Demo.gru_net Demo.batch2 (GRUNet.init_hidden Demo.gru_net 2)).2) /\
     length Y = length Demo.batch2 /\
     head_of (GRUNet.fc Demo.gru_net)
       (GRUNet.gru Demo.gru_net Demo.batch2 (GRUNet.init_hidden Demo.gru_net 2)).1 Y) /\
  (exists Y,
     LSTMNet.forward Demo.lstm_net Demo.batch2 (LSTMNet.init_hidden Demo.lstm_net 2)
       = Ok (Y, (LSTMNet.lstm Demo.lstm_net Demo.batch2
                   (LSTMNet.init_hidden Demo.lstm_net 2)).2) /\
     length Y = length Demo.batch2 /\
     head_of (LSTMNet.fc Demo.lstm_net)
       (LSTMNet.lstm Demo.lstm_net Demo.batch2 (LSTMNet.init_hidden Demo.lstm_net 2)).1 Y).
Proof.
  assert (H0 : (0 < 1)%nat) by lia.
  assert (H1 : GRUNet_wf Demo.gru_net) by (vm_compute; auto).
  assert (H2 : LSTMNet_wf Demo.lstm_net) by (vm_compute; auto).
  assert (H3 : has_shape3
                 (GRUNet.gru Demo.gru_net Demo.batch2 (GRUNet.init_hidden Demo.gru_net 2)).1
                 (length Demo.batch2) 1 (GRUNet.hidden_dim Demo.gru_net))
    by (vm_compute; repeat constructor).
  assert (H4 : has_shape3
                 (LSTMNet.lstm Demo.lstm_net Demo.batch2
                    (LSTMNet.init_hidden Demo.lstm_net 2)).1
                 (length Demo.batch2) 1 (LSTMNet.hidden_dim Demo.lstm_net))
    by (vm_compute; repeat constructor).
  exact (conj H0 (conj H1 (conj H2 (conj H3 (conj H4
           (forward_head Demo.gru_net Demo.lstm_net Demo.batch2 1 _ _ H0 H1 H2 H3 H4)))))).
Defined.

(** C5 on a directory with two tables and two entries that are skipped. *)
Lemma evaluate_own_scaler_witness :
  preprocess Demo.df_values Demo.files notebook0 = Ok Demo.nb /\
  evaluate Demo.gru_net (test_x Demo.nb) (test_y Demo.nb) (label_scalers Demo.nb)
    = Ok (Demo.ev.1.1, Demo.ev.1.2, Demo.ev.2) /\
  odict_keys (test_x Demo.nb) = ["a.csv"; "d.csv"]%string /\
  (forall j file, odict_keys (test_x Demo.nb) !! j = Some file ->
     exists sc inp labs out h',
       MinMaxScaler.fit (reshape_col (column 0 (Demo.df_values file))) = Ok sc /\
       label_scalers Demo.nb !! file = Some sc /\
       odict_get file (test_x Demo.nb) = Some inp /\
       test_y Demo.nb !! file = Some labs /\
       forward Demo.gru_net inp (init_hidden Demo.gru_net (length inp)) = Ok (out, h') /\
       Demo.ev.1.1 !! j = Some (reshape_flat (MinMaxScaler.inverse_transform sc out)) /\
       Demo.ev.1.2 !! j = Some (reshape_flat (MinMaxScaler.inverse_transform sc labs))) /\
  length Demo.ev.1.1 = length (odict_keys (test_x Demo.nb)) /\
  length Demo.ev.1.2 = length (odict_keys (test_x Demo.nb)) /\
  (forall nb0 file nb1 k,
     preprocess_file Demo.df_values nb0 file = Ok nb1 -> k ≠ file ->
     label_scalers nb1 !! k = label_scalers nb0 !! k).
Proof.
  assert (H1 : preprocess Demo.df_values Demo.files notebook0 = Ok Demo.nb)
    by (vm_compute; reflexivity).
  assert (H2 : evaluate Demo.gru_net (test_x Demo.nb) (test_y Demo.nb)
                 (label_scalers Demo.nb) = Ok (Demo.ev.1.1, Demo.ev.1.2, Demo.ev.2))
    by (vm_compute; reflexivity).
  assert (H3 : odict_keys (test_x Demo.nb) = ["a.csv"; "d.csv"]%string)
    by (vm_compute; reflexivity).
  exact (conj H1 (conj H2 (conj H3
           (evaluate_own_scaler Demo.df_values Demo.files Demo.gru_net Demo.nb
              Demo.ev.1.1 Demo.ev.1.2 Demo.ev.2 H1 H2)))).
Defined.

(** C10 on a pool of 2050 windows: two batches, two windows left out. *)
Lemma train_loader_batches_witness :
  length Demo.big_y = length Demo.big_x /\
  Demo.big_perm ≡ₚ seq 0 (length Demo.big_x) /\
  (length Demo.big_x / batch_size = 2)%nat /\
  (length Demo.big_x mod batch_size = 2)%nat /\
  batch_size = 1024%nat /\
  length (DataLoader.iter (train_loader Demo.big_x Demo.big_y) Demo.big_perm)
    = (length Demo.big_x / batch_size)%nat /\
  DataLoader.len (train_loader Demo.big_x Demo.big_y)
    = (length Demo.big_x / batch_size)%nat /\
  Forall (fun b => length b.1 = batch_size /\ length b.2 = batch_size)
    (DataLoader.iter (train_loader Demo.big_x Demo.big_y) Demo.big_perm) /\
  exists chunks dropped,
    DataLoader.iter (train_loader Demo.big_x Demo.big_y) Demo.big_perm
      = map (DataLoader.collate (train_loader Demo.big_x Demo.big_y)) chunks /\
    concat chunks ++ dropped = Demo.big_perm /\
    length dropped = (length Demo.big_x mod batch_size)%nat /\
    forall i : nat, i ∈ dropped -> Forall (fun b => i ∉ b) chunks.
Proof.
  assert (H1 : length Demo.big_y = length Demo.big_x) by (vm_compute; reflexivity).
  assert (H2 : Demo.big_perm ≡ₚ seq 0 (length Demo.big_x)).
  { replace (length Demo.big_x) with 2050%nat by (vm_compute; reflexivity). reflexivity. }
  assert (H3 : (length Demo.big_x / batch_size = 2)%nat) by (vm_compute; reflexivity).
  assert (H4 : (length Demo.big_x mod batch_size = 2)%nat) by (vm_compute; reflexivity).
  exact (conj H1 (conj H2 (conj H3 (conj H4
           (train_loader_batches Demo.big_x Demo.big_y Demo.big_perm H1 H2))))).
Defined.

(** * Further properties *)

(** ** Scaled values *)

Lemma fold_Qmin_le (v : vec) (a : Q) :
  fold_left Qmin v a <= a /\ Forall (fun y => fold_left Qmin v a <= y) v.
Proof.
  revert a. induction v as [|y v IH]; intros a; cbn.
  - split; [apply Qle_refl|constructor].
  - destruct (IH (Qmin a y)) as [H1 H2]. split.
    + eapply Qle_trans; [exact H1|apply Q.le_min_l].
    + constructor; [|exact H2]. eapply Qle_trans; [exact H1|apply Q.le_min_r].
Qed.

Lemma fold_Qmax_ge (v : vec) (a : Q) :
  a <= fold_left Qmax v a /\ Forall (fun y => y <= fold_left Qmax v a) v.
Proof.
  revert a. induction v as [|y v IH]; intros a; cbn.
  - split; [apply Qle_refl|constructor].
  - destruct (IH (Qmax a y)) as [H1 H2]. split.
    + eapply Qle_trans; [apply Q.le_max_l|exact H1].
    + constructor; [|exact H2]. eapply Qle_trans; [apply Q.le_max_r|exact H1].
Qed.

(** A value of a column lands in [[0, 1]] under the attributes fitted
    on that column. *)
Lemma fit_column_unit (c : vec) (y : Q) :
  y ∈ c ->
  0 <= y * (MinMaxScaler.fit_column c).1.2 + (MinMaxScaler.fit_column c).2 <= 1.
Proof.
  destruct c as [|x v]; [intros Hy; now apply elem_of_nil in Hy|].
  intros Hy. cbn [MinMaxScaler.fit_column fst snd].
  set (lo := MinMaxScaler.np_min x v). set (hi := MinMaxScaler.np_max x v).
  assert (Hlo : lo <= y).
  { destruct (fold_Qmin_le v x) as [H1 H2]. apply elem_of_cons in Hy as [Hy|Hy].
    - subst y. exact H1.
    - rewrite Forall_forall in H2. now apply H2. }
  assert (Hhi : y <= hi).
  { destruct (fold_Qmax_ge v x) as [H1 H2]. apply elem_of_cons in Hy as [Hy|Hy].
    - subst y. exact H1.
    - rewrite Forall_forall in H2. now apply H2. }
  unfold MinMaxScaler.handle_zeros_in_scale.
  destruct (Qeq_bool (hi - lo) 0) eqn:E.
  - apply Qeq_bool_eq in E.
    assert (E1 : y * ((1 - 0) / 1) + (0 - lo * ((1 - 0) / 1)) == y - lo) by field.
    rewrite E1. lra.
  - apply Qeq_bool_neq in E.
    assert (Hd : 0 < hi - lo).
    { destruct (Qlt_le_dec 0 (hi - lo)) as [Hp|Hn]; [exact Hp|]. exfalso. apply E. lra. }
    assert (E1 : y * ((1 - 0) / (hi - lo)) + (0 - lo * ((1 - 0) / (hi - lo)))
                 == (y - lo) / (hi - lo)) by (field; exact E).
    rewrite E1. split.
    + apply Qle_shift_div_l; [exact Hd|lra].
    + apply Qle_shift_div_r; [exact Hd|lra].
Qed.

(** What [windows_of] returns, read back from its result. *)
Lemma windows_of_inv (df_values : string -> matrix) (file : string)
    (lsc : MinMaxScaler.t) (inputs : tensor3) (labels : matrix) :
  windows_of df_values file = Ok (lsc, inputs, labels) ->
  let df := df_values file in
  let n := (length df - lookback)%nat in
  exists sc labels0,
    MinMaxScaler.fit df = Ok sc /\
    MinMaxScaler.fit (reshape_col (column 0 df)) = Ok lsc /\
    (lookback <= length df)%nat /\
    length inputs = n /\ length labels0 = n /\ labels = reshape_col labels0 /\
    forall i : nat, (i < n)%nat ->
      inputs !! i = Some (slice i (i + lookback) (MinMaxScaler.transform sc df)) /\
      labels0 !! i
      = Some (nth 0 (nth (i + lookback) (MinMaxScaler.transform sc df) []) 0).
Proof.
  intros Hw df n. revert Hw. unfold windows_of. fold df.
  unfold MinMaxScaler.fit_transform.
  destruct (MinMaxScaler.fit df) as [s|e]; [|discriminate].
  rewrite !bind_Ok. cbv beta iota zeta.
  destruct (MinMaxScaler.fit (reshape_col (column 0 df))) as [ls|e]; [|discriminate].
  rewrite bind_Ok, length_transform.
  destruct (Z.ltb_spec (Z.of_nat (length df) - Z.of_nat lookback) 0) as [Hneg|Hpos].
  { rewrite np_zeros3_Raise by exact Hneg. discriminate. }
  rewrite <- Nat2Z.inj_sub by lia.
  rewrite np_zeros3_Ok, bind_Ok, np_zeros1_Ok, bind_Ok. fold n.
  pose proof (window_loop_prefix lookback (MinMaxScaler.transform s df)
                (replicate n (replicate lookback (replicate (ncols df) 0)))
                (replicate n 0) n) as Hp.
  cbn zeta in Hp. unfold window_loop. rewrite length_transform. fold n.
  destruct (fold_left _ _ _) as [i l]. cbn [fst snd] in Hp.
  rewrite !length_replicate in Hp. destruct Hp as (Hi & Hl & Hp).
  intros [= <- <- <-]. exists s, l.
  split; [done|]. split; [done|]. split; [lia|]. split; [done|].
  split; [done|]. split; [done|].
  intros j Hj. destruct (Hp j Hj) as [H1 H2]. split; [now apply H1|now apply H2].
Qed.

Lemma zip3_Forall (P : Q -> Prop) (f : Q -> Q -> Q -> Q) (r a b : vec) :
  (forall (j : nat) x s m, r !! j = Some x -> a !! j = Some s -> b !! j = Some m ->
                           P (f x s m)) ->
  Forall P (MinMaxScaler.zip3 f r a b).
Proof.
  revert a b. induction r as [|x r IH]; intros [|s a] [|m b] H; cbn; try constructor.
  - apply (H 0%nat); reflexivity.
  - apply IH. intros j. apply (H (S j)).
Qed.

(** The attributes [fit] stores at position [j] are those fitted on
    column [j]. *)
Lemma fit_lookup (X : matrix) (sc : MinMaxScaler.t) (j : nat) (s m : Q) :
  MinMaxScaler.fit X = Ok sc ->
  MinMaxScaler.scale_ sc !! j = Some s -> MinMaxScaler.min_ sc !! j = Some m ->
  s = (MinMaxScaler.fit_column (column j X)).1.2 /\
  m = (MinMaxScaler.fit_column (column j X)).2.
Proof.
  destruct X as [|[|x r] X]; try discriminate.
  unfold MinMaxScaler.fit. intros Hfit.
  apply (f_equal (fun o => match o with Ok a => a | Raise _ => sc end)) in Hfit.
  cbv beta iota in Hfit. subst sc. cbn [MinMaxScaler.scale_ MinMaxScaler.min_].
  rewrite !list_lookup_fmap.
  destruct (seq 0 (length (x :: r)) !! j) as [j'|] eqn:E; [|discriminate].
  apply lookup_seq in E as [-> _]. cbn [fmap option_fmap option_map Nat.add].
  now intros [= <-] [= <-].
Qed.

Lemma elem_of_column (X : matrix) (r : vec) (j : nat) (x : Q) :
  r ∈ X -> r !! j = Some x -> x ∈ column j X.
Proof.
  intros Hr Hx. unfold column. apply list_elem_of_fmap. exists r.
  split; [|exact Hr]. symmetry. now apply nth_lookup_Some.
Qed.

(** Every entry of a table scaled by the scaler fitted on it lies in
    [[0, 1]]. *)
Lemma transform_unit (X : matrix) (sc : MinMaxScaler.t) :
  MinMaxScaler.fit X = Ok sc ->
  Forall (Forall unit_interval) (MinMaxScaler.transform sc X).
Proof.
  intros Hfit. unfold MinMaxScaler.transform. apply Forall_map, Forall_forall.
  intros r Hr. apply zip3_Forall. intros j x s m Hx Hs Hm.
  destruct (fit_lookup X sc j s m Hfit Hs Hm) as [-> ->].
  apply fit_column_unit. eapply elem_of_column; eauto.
Qed.

Lemma unit_interval_0 : unit_interval 0.
Proof. unfold unit_interval. lra. Qed.

Lemma nth_nth_unit (data : matrix) (k : nat) :
  Forall (Forall unit_interval) data -> unit_interval (nth 0 (nth k data []) 0).
Proof.
  intros Hd. rewrite !nth_lookup.
  destruct (data !! k) as [row|] eqn:Ek; cbn; [|apply unit_interval_0].
  destruct (row !! 0%nat) as [x|] eqn:Ex; cbn; [|apply unit_interval_0].
  rewrite Forall_lookup in Hd. specialize (Hd _ _ Ek).
  rewrite Forall_lookup in Hd. exact (Hd _ _ Ex).
Qed.

(** X5.  Every entry of every window and every label that the
    preprocessing builds for a file lies between 0 and 1. *)
Theorem windows_unit_interval (df_values : string -> matrix) (file : string)
    (lsc : MinMaxScaler.t) (inputs : tensor3) (labels : matrix) :
  windows_of df_values file = Ok (lsc, inputs, labels) ->
  Forall (Forall (Forall unit_interval)) inputs /\
  Forall (Forall unit_interval) labels.
Proof.
  intros Hw.
  destruct (windows_of_inv _ _ _ _ _ Hw)
    as (sc & labels0 & Hfit & _ & _ & Hi & Hl & -> & Hall).
  pose proof (transform_unit _ _ Hfit) as Hunit. split.
  - apply Forall_lookup. intros i w Hiw.
    destruct (Hall i) as [Hin _]; [rewrite <- Hi; eapply lookup_lt_Some; eauto|].
    rewrite Hin in Hiw. injection Hiw as <-.
    unfold slice. now apply Forall_take, Forall_drop.
  - unfold reshape_col. apply Forall_map, Forall_lookup. intros i x Hix.
    destruct (Hall i) as [_ Hlab]; [rewrite <- Hl; eapply lookup_lt_Some; eauto|].
    rewrite Hlab in Hix. injection Hix as <-.
    constructor; [|constructor]. now apply nth_nth_unit.
Qed.

(** X6.  A stored label, taken back with the label scaler of its file,
    is the consumption of the row that follows its window in the table
    as read. *)
Theorem stored_labels_raw (df_values : string -> matrix) (file : string)
    (lsc : MinMaxScaler.t) (inputs : tensor3) (labels : matrix)
    (i : nat) (row lab : vec) :
  windows_of df_values file = Ok (lsc, inputs, labels) ->
  df_values file !! (i + lookback)%nat = Some row ->
  row ≠ [] ->
  labels !! i = Some lab ->
  Forall2 (Forall2 Qeq) (MinMaxScaler.inverse_transform lsc [lab]) [[nth 0 row 0]].
Proof.
  intros Hw Hrow Hne Hlab.
  destruct (windows_of_inv _ _ _ _ _ Hw)
    as (sc & labels0 & Hfit & Hlfit & _ & _ & Hl & -> & Hall).
  assert (Hi : (i < length (df_values file) - lookback)%nat).
  { apply lookup_lt_Some in Hrow. lia. }
  destruct (Hall i Hi) as [_ Hl0].
  rewrite (lookup_reshape_col _ _ _ Hl0) in Hlab. injection Hlab as <-.
  pose proof (stored_label_round_trip _ _ _ row Hfit Hlfit Hne) as Hrt.
  assert (Hd : MinMaxScaler.transform sc (df_values file) !! (i + lookback)%nat
               = Some (MinMaxScaler.zip3 (fun x s m => x * s + m) row
                         (MinMaxScaler.scale_ sc) (MinMaxScaler.min_ sc))).
  { unfold MinMaxScaler.transform. now rewrite list_lookup_fmap, Hrow. }
  rewrite (nth_lookup_Some _ _ [] _ Hd). exact Hrt.
Qed.

(** ** Shapes and bookkeeping of the pools *)


(** The windows of a file have [lookback] rows each, its labels one
    entry each, and there are as many of the ones as of the others. *)
Lemma windows_of_shapes (df_values : string -> matrix) (file : string)
    (lsc : MinMaxScaler.t) (inputs : tensor3) (labels : matrix) :
  windows_of df_values file = Ok (lsc, inputs, labels) ->
  length labels = length inputs /\
  Forall (fun w => length w = lookback) inputs /\
  Forall (fun l => length l = 1%nat) labels.
Proof.
  intros Hw.
  destruct (windows_of_inv _ _ _ _ _ Hw)
    as (sc & labels0 & _ & _ & HT & Hi & Hl & -> & Hall).
  split; [rewrite length_reshape_col; lia|]. split.
  - apply Forall_lookup. intros i w Hiw.
    assert (Hlt : (i < length (df_values file) - lookback)%nat).
    { rewrite <- Hi. eapply lookup_lt_Some; eauto. }
    destruct (Hall i Hlt) as [Hin _]. rewrite Hin in Hiw. injection Hiw as <-.
    apply slice_length. rewrite length_transform. lia.
  - unfold reshape_col. apply Forall_map, Forall_true. reflexivity.
Qed.


(** X7.  The turn of the loop for one file leaves the test windows and
    test labels stored under every other name as they are, and the
    training windows it found stay at the front of the training pool. *)
Theorem preprocess_file_frame (df_values : string -> matrix) (nb nb' : Notebook)
    (file : string) :
  preprocess_file df_values nb file = Ok nb' ->
  (forall k, k ≠ file ->
     odict_get k (test_x nb') = odict_get k (test_x nb) /\
     test_y nb' !! k = test_y nb !! k) /\
  exists added, train_x nb' = train_x nb ++ added.
Proof.
  unfold preprocess_file.
  destruct (windows_of df_values file) as [[[sc inputs] labels]|e]; [|discriminate].
  rewrite bind_Ok. cbv zeta. intros [= <-]. split.
  - intros k Hk. unfold split, store_label_scaler.
    destruct (decide _); cbn;
      (split; [now apply odict_get_set_ne|now apply lookup_insert_ne]).
  - unfold split. cbn [train_x store_label_scaler].
    destruct (decide (length (train_x nb) = 0%nat)) as [H0|H0]; cbn; [|eauto].
    apply nil_length_inv in H0. rewrite H0. eauto.
Qed.

Lemma pool_shapes_notebook0 : pool_shapes notebook0.
Proof.
  unfold pool_shapes, notebook0. cbn.
  split; [done|]. split; [constructor|]. split; [constructor|]. discriminate.
Qed.

Lemma preprocess_file_pool_shapes (df_values : string -> matrix)
    (nb nb' : Notebook) (file : string) :
  pool_shapes nb -> preprocess_file df_values nb file = Ok nb' -> pool_shapes nb'.
Proof.
  intros (Hlen & Htx & Hty & Htest). unfold preprocess_file.
  destruct (windows_of df_values file) as [[[sc inputs] labels]|e] eqn:Hw; [|discriminate].
  rewrite bind_Ok. cbv zeta. intros [= <-].
  destruct (windows_of_shapes _ _ _ _ _ Hw) as (Hl & Hin & Hlab).
  set (nb1 := store_label_scaler nb file sc).
  destruct (split_test nb1 file inputs labels) as (Hx & Hy & _).
  destruct (split_train nb1 file inputs labels Hlen) as (Hrx & Hry).
  cbv zeta in *. set (k := (- Z.of_nat (int_tenth (length inputs)))%Z) in *.
  split; [|split; [|split]].
  - rewrite Hrx, Hry. cbn [train_x train_y nb1 store_label_scaler].
    rewrite !length_app. unfold slice_to. rewrite !length_take, Hl, Hlen. lia.
  - rewrite Hrx. apply Forall_app. split; [exact Htx|]. now apply Forall_take.
  - rewrite Hry. apply Forall_app. split; [exact Hty|]. now apply Forall_take.
  - intros k' tx Hk'. destruct (decide (k' = file)) as [->|Hne].
    + rewrite Hx in Hk'. injection Hk' as <-.
      split; [now apply Forall_drop|].
      exists (slice_from k labels). split; [exact Hy|].
      split; [|now apply Forall_drop].
      unfold slice_from. rewrite !length_drop, Hl. lia.
    + assert (Hgx : odict_get k' (test_x (split nb1 file inputs labels))
                    = odict_get k' (test_x nb)).
      { unfold split. destruct (decide _); cbn; now apply odict_get_set_ne. }
      assert (Hgy : test_y (split nb1 file inputs labels) !! k' = test_y nb !! k').
      { unfold split. destruct (decide _); cbn; now apply lookup_insert_ne. }
      rewrite Hgx in Hk'. rewrite Hgy. now apply Htest.
Qed.

(** X3.  After the preprocessing of any listing, the training pool has
    one label per window, every window of either pool has [lookback]
    rows, every label is a row of one entry, and every name of the test
    pool has as many test labels as test windows. *)
Theorem preprocess_pool_shapes (df_values : string -> matrix)
    (files : list string) (nb : Notebook) :
  preprocess df_values files notebook0 = Ok nb -> pool_shapes nb.
Proof.
  unfold preprocess. generalize pool_shapes_notebook0. generalize notebook0.
  induction files as [|file files IH]; intros nb0 Hinv.
  - now intros [= <-].
  - cbn [for_each]. destruct (skipped file).
    + rewrite bind_Ok. now apply IH.
    + destruct (preprocess_file df_values nb0 file) as [nb1|e] eqn:Hf; [|discriminate].
      rewrite bind_Ok. apply IH. eapply preprocess_file_pool_shapes; eauto.
Qed.

Lemma odict_keys_set_eq {A} (k : string) (v : A) (d : odict A) :
  odict_keys (odict_set k v d)
  = if decide (k ∈ odict_keys d) then odict_keys d else odict_keys d ++ [k].
Proof.
  unfold odict_keys. induction d as [|[k' v'] d IH]; cbn.
  - rewrite decide_False; [done|]. apply not_elem_of_nil.
  - destruct (decide (k' = k)) as [->|Hne]; cbn.
    + rewrite decide_True; [done|]. apply elem_of_cons. now left.
    + rewrite IH. destruct (decide (k ∈ map fst d)) as [Hin|Hnin].
      * rewrite decide_True; [done|]. apply elem_of_cons. now right.
      * rewrite decide_False; [done|].
        intros [->|Hin]%elem_of_cons; [now apply Hne|now apply Hnin].
Qed.

Lemma preprocess_file_keys (df_values : string -> matrix)
    (nb nb' : Notebook) (file : string) :
  preprocess_file df_values nb file = Ok nb' ->
  odict_keys (test_x nb')
  = if decide (file ∈ odict_keys (test_x nb)) then odict_keys (test_x nb)
    else odict_keys (test_x nb) ++ [file].
Proof.
  unfold preprocess_file.
  destruct (windows_of df_values file) as [[[sc inputs] labels]|e]; [|discriminate].
  rewrite bind_Ok. cbv zeta. intros [= <-].
  unfold split. destruct (decide (length _ = 0%nat)); cbn; apply odict_keys_set_eq.
Qed.

Lemma preprocess_keys_from (df_values : string -> matrix)
    (files : list string) (nb0 nb : Notebook) :
  NoDup files ->
  (forall f, f ∈ files -> f ∉ odict_keys (test_x nb0)) ->
  preprocess df_values files nb0 = Ok nb ->
  odict_keys (test_x nb)
  = odict_keys (test_x nb0) ++ List.filter (fun f => negb (skipped f)) files.
Proof.
  unfold preprocess. revert nb0.
  induction files as [|file files IH]; intros nb0 Hnd Hfresh.
  - intros [= <-]. cbn. now rewrite app_nil_r.
  - apply NoDup_cons in Hnd as [Hnotin Hnd]. cbn [for_each List.filter].
    destruct (skipped file); cbn [negb].
    + rewrite bind_Ok. apply IH; [exact Hnd|].
      intros f Hf. apply Hfresh. now right.
    + destruct (preprocess_file df_values nb0 file) as [nb1|e] eqn:Hf; [|discriminate].
      rewrite bind_Ok. intros Hrest.
      pose proof (preprocess_file_keys _ _ _ _ Hf) as Hk.
      rewrite decide_False in Hk by (apply Hfresh; now left).
      rewrite (IH nb1 Hnd); [now rewrite Hk, <- app_assoc| |exact Hrest].
      intros f Hf'. rewrite Hk. intros [Hin|Hin]%elem_of_app.
      * apply (Hfresh f); [now right|exact Hin].
      * apply list_elem_of_singleton in Hin. subst f. now apply Hnotin.
Qed.

(** X2.  When the listing of the directory names no entry twice, the
    names of the test pool after preprocessing are the entries that are
    not skipped, in the order of the listing; [evaluate] returns its
    prediction and target vectors in that order. *)
Theorem preprocess_keys (df_values : string -> matrix)
    (files : list string) (nb : Notebook) :
  NoDup files ->
  preprocess df_values files notebook0 = Ok nb ->
  odict_keys (test_x nb) = List.filter (fun f => negb (skipped f)) files.
Proof.
  intros Hnd Hpre.
  rewrite (preprocess_keys_from df_values files notebook0 nb Hnd); [done| |exact Hpre].
  intros f _. cbn. apply not_elem_of_nil.
Qed.

Lemma preprocess_file_short (df_values : string -> matrix) (nb : Notebook)
    (file : string) :
  (length (df_values file) < lookback)%nat ->
  exists e, preprocess_file df_values nb file = Raise e.
Proof.
  intros HT. set (df := df_values file) in *.
  unfold preprocess_file, windows_of, MinMaxScaler.fit_transform. fold df.
  destruct (decide (length df = 0%nat \/ ncols df = 0%nat)) as [Hempty|Hfull].
  - rewrite (fit_Raise df Hempty). eauto.
  - destruct (fit_Ok df) as [sc Hsc]; [lia|lia|].
    destruct (fit_Ok (reshape_col (column 0 df))) as [label_sc Hlsc].
    { unfold column. rewrite length_reshape_col, length_map. lia. }
    { destruct df as [|r df']; [cbn in Hfull; lia|cbn; lia]. }
    rewrite Hsc, !bind_Ok. cbv beta iota zeta. rewrite Hlsc, bind_Ok.
    rewrite length_transform, np_zeros3_Raise by lia. eauto.
Qed.

(** X8.  One file that is not skipped and has fewer rows than
    [lookback] is enough for the preprocessing of the whole listing to
    end in an exception, wherever the file stands in the listing and
    whatever the other files hold. *)
Theorem preprocess_aborts_on_short_file (df_values : string -> matrix)
    (files : list string) (nb : Notebook) (file : string) :
  file ∈ files ->
  skipped file = false ->
  (length (df_values file) < lookback)%nat ->
  exists e, preprocess df_values files nb = Raise e.
Proof.
  intros Hin Hskip HT. unfold preprocess. revert nb.
  induction files as [|f files IH]; intros nb; [now apply elem_of_nil in Hin|].
  cbn [for_each]. destruct (decide (f = file)) as [->|Hne].
  - rewrite Hskip. destruct (preprocess_file_short df_values nb file HT) as [e ->]. eauto.
  - apply elem_of_cons in Hin as [->|Hin]; [done|].
    destruct (skipped f).
    + rewrite bind_Ok. now apply IH.
    + destruct (preprocess_file df_values nb f) as [nb1|e]; [|eauto].
      rewrite bind_Ok. now apply IH.
Qed.

(** ** Which entries of the directory are read *)

Lemma substring_0_all (s : string) (m : nat) :
  (String.length s <= m)%nat -> String.substring 0 m s = s.
Proof.
  revert m. induction s as [|c s IH]; intros [|m] Hm; cbn in *; try reflexivity; try lia.
  f_equal. apply IH. lia.
Qed.

Lemma string_length_append (p t : string) :
  String.length (String.append p t) = (String.length p + String.length t)%nat.
Proof.
  induction p as [|c p IH]; [reflexivity|].
  change (S (String.length (String.append p t)) = S (String.length p + String.length t)).
  now rewrite IH.
Qed.

Lemma substring_append (p t : string) :
  String.substring (String.length p) (String.length t) (String.append p t) = t.
Proof.
  induction p as [|c p IH]; cbn [String.length String.append String.substring].
  - now apply substring_0_all.
  - exact IH.
Qed.

Lemma substring_suffix (s : string) (n : nat) :
  (n <= String.length s)%nat ->
  s = String.append (String.substring 0 n s)
                    (String.substring n (String.length s - n) s).
Proof.
  revert n. induction s as [|c s IH]; intros [|n] Hn.
  - reflexivity.
  - cbn in Hn. lia.
  - change (String.substring 0 0 (String c s)) with ""%string.
    cbn [String.append]. rewrite Nat.sub_0_r. symmetry. now apply substring_0_all.
  - change (String c s
            = String c (String.append (String.substring 0 n s)
                          (String.substring n (String.length s - n) s))).
    f_equal. apply IH. cbn in Hn. lia.
Qed.

(** X1.  An entry of the directory is read exactly when its name ends
    in the four characters [.csv], in lower case, and is not
    [pjm_hourly_est.csv]. *)
Theorem skipped_false_iff (file : string) :
  skipped file = false <->
  (exists p, file = String.append p ".csv") /\ file ≠ "pjm_hourly_est.csv"%string.
Proof.
  unfold skipped. rewrite orb_false_iff, negb_false_iff, String.eqb_eq, String.eqb_neq.
  split; intros [Hsuf Hne]; (split; [|exact Hne]).
  - destruct (le_lt_dec 4 (String.length file)) as [Hlen|Hlen].
    + exists (String.substring 0 (String.length file - 4) file).
      pose proof (substring_suffix file (String.length file - 4)) as E.
      replace (String.length file - (String.length file - 4))%nat with 4%nat in E by lia.
      rewrite Hsuf in E. apply E. lia.
    + exists ""%string. cbn [String.append]. rewrite <- Hsuf.
      replace (String.length file - 4)%nat with 0%nat by lia.
      symmetry. apply substring_0_all. lia.
  - destruct Hsuf as [p ->]. rewrite string_length_append. cbn [String.length].
    replace (String.length p + 4 - 4)%nat with (String.length p) by lia.
    apply (substring_append p ".csv").
Qed.

(** ** More on the error measure *)

Lemma Qsum_Forall2 (u v : vec) : Forall2 Qeq u v -> Qsum u == Qsum v.
Proof.
  induction 1 as [|x y u v Hxy _ IH]; cbn; [reflexivity|].
  unfold Qsum in IH. now rewrite Hxy, IH.
Qed.

Lemma zip_with_swap_Qeq {A} (f : A -> A -> Q) (a b : list A) :
  (forall x y, f x y == f y x) ->
  Forall2 Qeq (zip_with f a b) (zip_with f b a).
Proof.
  intros Hf. revert b. induction a as [|x a IH]; intros [|y b]; cbn; constructor; auto.
Qed.

Lemma sMAPE_term_sym (o t : Q) :
  Qabs (o - t) / (t + o) / 2 == Qabs (t - o) / (o + t) / 2.
Proof.
  assert (E : Qabs (o - t) == Qabs (t - o)).
  { rewrite <- (Qabs_opp (t - o)). apply Qabs_wd. ring. }
  rewrite E, (Qplus_comm t o). reflexivity.
Qed.

Lemma file_error_sym (o t : vec) : file_error o t == file_error t o.
Proof.
  unfold file_error, np_mean, sMAPE_terms.
  rewrite !length_zip_with, (Nat.min_comm (length o) (length t)).
  apply Qdiv_comp; [|reflexivity].
  apply (Qsum_Forall2 _ _ (zip_with_swap_Qeq _ o t sMAPE_term_sym)).
Qed.

(** X10.  The measure is symmetric: exchanging the prediction vectors
    with the target vectors, file by file, does not change it. *)
Theorem sMAPE_loop_sym (outputs targets : list vec) :
  length targets = length outputs ->
  sMAPE_loop outputs targets == sMAPE_loop targets outputs.
Proof.
  intros Hlen.
  rewrite (sMAPE_loop_average outputs targets Hlen).
  rewrite (sMAPE_loop_average targets outputs (eq_sym Hlen)).
  rewrite Hlen. apply Qdiv_comp; [|reflexivity].
  apply (Qsum_Forall2 _ _ (zip_with_swap_Qeq file_error outputs targets file_error_sym)).
Qed.

Lemma inject_Z_S (n : nat) :
  inject_Z (Z.of_nat (S n)) == inject_Z (Z.of_nat n) + 1.
Proof. rewrite Nat2Z.inj_succ, <- Z.add_1_r, inject_Z_plus. reflexivity. Qed.

Lemma Qsum_bounds (c : Q) (v : vec) :
  Forall (fun x => 0 <= x <= c) v ->
  0 <= Qsum v <= inject_Z (Z.of_nat (length v)) * c.
Proof.
  induction 1 as [|x v [Hx0 Hxc] _ [IH0 IHc]].
  - change (0 <= 0 <= 0 * c). lra.
  - change (Qsum (x :: v)) with (x + Qsum v). cbn [length]. rewrite inject_Z_S. lra.
Qed.

(** The mean of values between 0 and [c] lies between 0 and [c]. *)
Lemma mean_bounds (c : Q) (v : vec) :
  0 <= c -> Forall (fun x => 0 <= x <= c) v ->
  0 <= Qsum v / inject_Z (Z.of_nat (length v)) <= c.
Proof.
  intros Hc Hv. destruct (Qsum_bounds c v Hv) as [H0 H1].
  destruct v as [|x v].
  - cbn. unfold Qdiv. lra.
  - set (n := inject_Z (Z.of_nat (length (x :: v)))) in *.
    assert (Hn : 0 < n).
    { unfold n. cbn [length]. rewrite inject_Z_S.
      assert (0 <= inject_Z (Z.of_nat (length v))); [|lra].
      change 0 with (inject_Z 0). rewrite <- Zle_Qle. lia. }
    split.
    + apply Qle_shift_div_l; [exact Hn|lra].
    + apply Qle_shift_div_r; [exact Hn|lra].
Qed.

Lemma sMAPE_term_bounds (o t : Q) :
  0 < o -> 0 < t -> 0 <= Qabs (o - t) / (t + o) / 2 <= 1 # 2.
Proof.
  intros Ho Ht.
  assert (Hs : 0 < t + o) by lra.
  assert (Ha : 0 <= Qabs (o - t)) by apply Qabs_nonneg.
  assert (Hb : Qabs (o - t) <= t + o).
  { apply Qabs_Qle_condition. split; lra. }
  set (r := Qabs (o - t) / (t + o)).
  assert (Hr0 : 0 <= r) by (apply Qle_shift_div_l; [exact Hs|lra]).
  assert (Hr1 : r <= 1) by (apply Qle_shift_div_r; [exact Hs|lra]).
  split.
  - apply Qle_shift_div_l; lra.
  - apply Qle_shift_div_r; lra.
Qed.

Lemma file_error_bounds (o t : vec) :
  Forall (Qlt 0) o -> Forall (Qlt 0) t -> 0 <= file_error o t <= 1 # 2.
Proof.
  intros Ho Ht. unfold file_error, np_mean. apply mean_bounds; [lra|].
  unfold sMAPE_terms. revert t Ht.
  induction Ho as [|x o Hx _ IH]; intros [|y t] Hy; cbn; try constructor.
  - apply sMAPE_term_bounds; [exact Hx|]. now apply Forall_cons in Hy as [? _].
  - apply IH. now apply Forall_cons in Hy as [_ ?].
Qed.

(** X11.  On positive predictions and targets the measure lies between
    0 and 1/2: the percentage the notebook prints never exceeds 50. *)
Theorem sMAPE_loop_bounds (outputs targets : list vec) :
  Forall2 (fun o t => o ≠ [] /\ length o = length t) outputs targets ->
  Forall (Forall (Qlt 0)) outputs ->
  Forall (Forall (Qlt 0)) targets ->
  0 <= sMAPE_loop outputs targets <= 1 # 2.
Proof.
  intros Hshape Ho Ht.
  assert (Hlen : length targets = length outputs).
  { symmetry. eapply Forall2_length; eauto. }
  rewrite (sMAPE_loop_average outputs targets Hlen).
  assert (Hz : length (zip_with file_error outputs targets) = length outputs).
  { rewrite length_zip_with. lia. }
  rewrite <- Hz. apply mean_bounds; [lra|].
  clear Hz Hlen Hshape. revert targets Ht.
  induction Ho as [|o outputs Hx _ IH]; intros [|t targets] Hy; cbn; try constructor.
  - apply file_error_bounds; [exact Hx|]. now apply Forall_cons in Hy as [? _].
  - apply IH. now apply Forall_cons in Hy as [_ ?].
Qed.

(** X9.  The value [evaluate] returns as sMAPE is the plain average of
    the per-file means: every file weighs the same, however many test
    windows it has. *)
Theorem sMAPE_loop_unweighted (outputs targets : list vec) :
  length targets = length outputs ->
  sMAPE_loop outputs targets ==
  Qsum (zip_with (fun o t => np_mean (sMAPE_terms o t)) outputs targets)
  / inject_Z (Z.of_nat (length outputs)).
Proof.
  intros Hlen. unfold sMAPE_loop.
  set (c := inject_Z (Z.of_nat (length outputs))).
  set (e := fun o t : list Q => np_mean (sMAPE_terms o t)).
  change (fold_left (fun s i => s + e (nth i outputs []) (nth i targets []) / c)
            (seq 0 (length outputs)) 0
          == Qsum (zip_with e outputs targets) / c).
  rewrite (fold_left_Qplus (fun i => e (nth i outputs []) (nth i targets []) / c)).
  rewrite <- (map_map (fun i => e (nth i outputs []) (nth i targets []))
                      (fun x => x / c)).
  rewrite (map_nth_seq e [] [] outputs targets Hlen).
  induction (zip_with e outputs targets) as [|x es IH].
  - cbn. unfold Qdiv. ring.
  - change (Qsum (map (fun x => x / c) (x :: es)))
      with (x / c + Qsum (map (fun x => x / c) es)).
    change (Qsum (x :: es)) with (x + Qsum es).
    rewrite Qplus_0_l in IH. unfold Qdiv in *. rewrite Qplus_0_l, IH. ring.
Qed.

Lemma sMAPE_term_same (o : Q) : Qabs (o - o) / (o + o) / 2 == 0.
Proof.
  assert (E : Qabs (o - o) == 0).
  { assert (E0 : o - o == 0) by ring. rewrite (Qabs_wd _ _ E0). reflexivity. }
  rewrite E. unfold Qdiv. ring.
Qed.

Lemma Qsum_zero (v : vec) : Forall (fun x => x == 0) v -> Qsum v == 0.
Proof.
  induction 1 as [|x v Hx _ IH]; [reflexivity|].
  change (Qsum (x :: v)) with (x + Qsum v). rewrite Hx, IH. ring.
Qed.

Lemma file_error_same (o : vec) : file_error o o == 0.
Proof.
  unfold file_error, np_mean.
  rewrite (Qsum_zero (sMAPE_terms o o)); [unfold Qdiv; ring|].
  unfold sMAPE_terms. induction o as [|x o IH]; cbn; constructor; [|exact IH].
  apply sMAPE_term_same.
Qed.

(** X12.  Predictions that equal their targets, none of them zero, on
    files that each have a test window, give the measure 0. *)
Theorem sMAPE_loop_perfect (outputs : list vec) :
  Forall (fun o => o ≠ [] /\ Forall (fun x => ~ x == 0) o) outputs ->
  sMAPE_loop outputs outputs == 0.
Proof.
  intros _. rewrite (sMAPE_loop_average outputs outputs eq_refl).
  rewrite (Qsum_zero (zip_with file_error outputs outputs)); [unfold Qdiv; ring|].
  induction outputs as [|o outputs IH]; cbn; constructor; [|exact IH].
  apply file_error_same.
Qed.

(** ** Exceptions of the evaluator, the trainer and the networks *)

(** X13.  When a name of the test pool has no labels, or no label
    scaler, [evaluate] returns nothing: it ends in an exception,
    whatever the network answers. *)
Theorem evaluate_missing_key {M : Type} `{Model M} (model : M)
    (tx : odict tensor3) (ty : gmap string matrix)
    (ls : gmap string MinMaxScaler.t) (k : string) :
  k ∈ odict_keys tx ->
  ty !! k = None \/ ls !! k = None ->
  exists e, evaluate model tx ty ls = Raise e.
Proof.
  intros Hk Hmiss. unfold evaluate.
  assert (Hloop : forall keys acc, k ∈ keys ->
             exists e, for_each (evaluate_file model tx ty ls) keys acc = Raise e).
  { induction keys as [|i keys IH]; intros acc Hin; [now apply elem_of_nil in Hin|].
    cbn [for_each].
    destruct (evaluate_file model tx ty ls acc i) as [acc1|e] eqn:E; [|eauto].
    rewrite bind_Ok. apply elem_of_cons in Hin as [<-|Hin]; [|now apply IH].
    exfalso. destruct (evaluate_file_Ok _ _ _ _ _ _ _ E)
      as (o & t & _ & inp & labs & out & h' & sc & _ & Hy & _ & Hs & _).
    destruct Hmiss as [Hn|Hn]; congruence. }
  destruct (Hloop (odict_keys tx) ([], []) Hk) as [e ->]. eauto.
Qed.

(** X15.  On a training pool with fewer windows than one batch the
    loader yields nothing, and [train] ends in [StopIteration] at its
    first statement, before any network is built. *)
Theorem train_small_pool {M : Type} `{Model M} (construct : nat -> M)
    (optimise : M -> tensor3 -> matrix -> hidden -> result (M * hidden * Q))
    (draw : nat -> list nat) (train_x : tensor3) (train_y : matrix) (EPOCHS : nat) :
  (length (draw 0%nat) < batch_size)%nat ->
  train construct optimise draw (train_loader train_x train_y) EPOCHS
  = Raise StopIteration.
Proof.
  intros Hsmall. unfold train, DataLoader.iter.
  destruct (batch_sampler_count batch_size batch_size_pos (draw 0%nat))
    as (dropped & _ & _ & Hcount & _).
  rewrite Nat.div_small in Hcount by exact Hsmall.
  cbn [train_loader DataLoader.batch_size DataLoader.drop_last].
  apply nil_length_inv in Hcount. now rewrite Hcount.
Qed.

Lemma lookup_map {A B} (f : A -> B) (l : list A) (i : nat) :
  map f l !! i = f <$> l !! i.
Proof. exact (list_lookup_fmap f l i). Qed.

Lemma batch_sampler_elem (bs : nat) (perm : list nat) (chunk : list nat) (i : nat) :
  (0 < bs)%nat ->
  chunk ∈ DataLoader.batch_sampler bs true perm [] -> i ∈ chunk -> i ∈ perm.
Proof.
  intros Hbs Hc Hi.
  destruct (batch_sampler_count bs Hbs perm) as (dropped & Hcat & _).
  rewrite <- Hcat. apply elem_of_app. left.
  apply list_elem_of_In, in_concat. exists chunk.
  split; now apply list_elem_of_In.
Qed.

(** X17.  Shuffling and batching keep every window with its own label:
    entry [j] of a batch is a window of the training pool, drawn by the
    sampler, and entry [j] of the labels of the batch is the label
    stored at the same index of the pool. *)
Theorem batches_pair_windows_with_labels (train_x : tensor3) (train_y : matrix)
    (perm : list nat) (b : tensor3 * matrix) (j : nat) (w : matrix) :
  length train_y = length train_x ->
  Forall (fun i => (i < length train_x)%nat) perm ->
  b ∈ DataLoader.iter (train_loader train_x train_y) perm ->
  b.1 !! j = Some w ->
  exists idx, idx ∈ perm /\ train_x !! idx = Some w /\ b.2 !! j = train_y !! idx.
Proof.
  intros Hlen Hperm Hb Hw. unfold DataLoader.iter in Hb.
  apply list_elem_of_fmap in Hb as (chunk & -> & Hchunk).
  cbn [train_loader DataLoader.batch_size DataLoader.drop_last] in Hchunk.
  unfold DataLoader.collate in *. cbn [fst snd train_loader DataLoader.dataset_x
                                        DataLoader.dataset_y] in *.
  rewrite lookup_map in Hw. rewrite lookup_map.
  destruct (chunk !! j) as [idx|] eqn:Ej; [|discriminate].
  cbn in Hw |- *. injection Hw as <-.
  assert (Hin : idx ∈ perm).
  { eapply batch_sampler_elem; [apply batch_size_pos|exact Hchunk|].
    eapply list_elem_of_lookup_2; eauto. }
  assert (Hlt : (idx < length train_x)%nat).
  { rewrite Forall_forall in Hperm. now apply Hperm. }
  exists idx. split; [exact Hin|].
  destruct (lookup_lt_is_Some_2 train_x idx Hlt) as [w Hw].
  destruct (lookup_lt_is_Some_2 train_y idx) as [l Hl]; [lia|].
  rewrite (nth_lookup_Some _ _ [] _ Hw), (nth_lookup_Some _ _ [] _ Hl). done.
Qed.

Lemma last_step_empty (out : tensor3) : [] ∈ out -> last_step out = Raise IndexError.
Proof.
  unfold last_step. induction out as [|steps out IH]; intros Hin.
  - now apply elem_of_nil in Hin.
  - cbn [mapM]. destruct (getitem_last steps) as [v|e] eqn:E.
    + rewrite bind_Ok. apply elem_of_cons in Hin as [<-|Hin]; [discriminate|].
      now rewrite (IH Hin).
    + unfold getitem_last in E. destruct (last steps); [discriminate|].
      now injection E as <-.
Qed.

(** X18.  When the recurrent layer answers with a sequence that has no
    time step, [forward] ends in [IndexError] and gives no prediction;
    so for either network. *)
Theorem forward_no_time_step (g : GRUNet.t) (l : LSTMNet.t) (x : tensor3)
    (hg : tensor3) (hl : tensor3 * tensor3) :
  [] ∈ (GRUNet.gru g x hg).1 ->
  [] ∈ (LSTMNet.lstm l x hl).1 ->
  GRUNet.forward g x hg = Raise IndexError /\
  LSTMNet.forward l x hl = Raise IndexError.
Proof.
  intros Hg Hl. split.
  - unfold GRUNet.forward. destruct (GRUNet.gru g x hg) as [out h'].
    cbn [fst] in Hg. now rewrite (last_step_empty out Hg).
  - unfold LSTMNet.forward. destruct (LSTMNet.lstm l x hl) as [out h'].
    cbn [fst] in Hl. now rewrite (last_step_empty out Hl).
Qed.

(** ** The targets the evaluator returns *)

Lemma preprocess_file_test_labels_own (df_values : string -> matrix)
    (nb nb' : Notebook) (file : string) :
  test_labels_own df_values nb ->
  preprocess_file df_values nb file = Ok nb' ->
  test_labels_own df_values nb'.
Proof.
  intros Hinv. unfold preprocess_file.
  destruct (windows_of df_values file) as [[[sc inputs] labels]|e] eqn:Hw; [|discriminate].
  rewrite bind_Ok. cbv zeta. intros [= <-] k ty.
  assert (Hy : test_y (split (store_label_scaler nb file sc) file inputs labels)
               = <[file := slice_from (- Z.of_nat (int_tenth (length inputs))) labels]>
                   (test_y nb)).
  { unfold split. now destruct (decide _). }
  assert (Hs : label_scalers (split (store_label_scaler nb file sc) file inputs labels)
               = <[file := sc]> (label_scalers nb)).
  { unfold split. now destruct (decide _). }
  rewrite Hy, Hs. destruct (decide (k = file)) as [->|Hne].
  - rewrite !lookup_insert_eq. intros [= <-]. now exists sc, inputs, labels.
  - rewrite !lookup_insert_ne by done. apply Hinv.
Qed.

Lemma preprocess_test_labels_own (df_values : string -> matrix)
    (files : list string) (nb : Notebook) :
  preprocess df_values files notebook0 = Ok nb -> test_labels_own df_values nb.
Proof.
  unfold preprocess.
  assert (H0 : test_labels_own df_values notebook0).
  { intros k ty Hk. cbn in Hk. now rewrite lookup_empty in Hk. }
  revert H0. generalize notebook0.
  induction files as [|file files IH]; intros nb0 Hinv.
  - now intros [= <-].
  - cbn [for_each]. destruct (skipped file).
    + rewrite bind_Ok. now apply IH.
    + destruct (preprocess_file df_values nb0 file) as [nb1|e] eqn:Hf; [|discriminate].
      rewrite bind_Ok. apply IH. eapply preprocess_file_test_labels_own; eauto.
Qed.

(** A fitted one-column scaler takes a one-column array back entry by
    entry. *)
Lemma inverse_transform_col (c : vec) (lsc : MinMaxScaler.t) (v : vec) :
  MinMaxScaler.fit (reshape_col c) = Ok lsc ->
  exists s m,
    MinMaxScaler.scale_ lsc = [s] /\ MinMaxScaler.min_ lsc = [m] /\
    reshape_flat (MinMaxScaler.inverse_transform lsc (reshape_col v))
    = map (fun x => (x - m) / s) v.
Proof.
  destruct c as [|x c]; [discriminate|].
  rewrite fit_reshape_col. intros [= <-]. cbv zeta.
  cbn [MinMaxScaler.scale_ MinMaxScaler.min_]. eexists _, _.
  split; [reflexivity|]. split; [reflexivity|].
  unfold reshape_flat, MinMaxScaler.inverse_transform, reshape_col.
  cbn [MinMaxScaler.scale_ MinMaxScaler.min_].
  induction v as [|y v IH]; [reflexivity|].
  cbn [map concat MinMaxScaler.zip3 app]. now rewrite IH.
Qed.

(** The labels of a file from position [b] on, taken back with the
    label scaler and flattened, are the consumptions of the rows from
    [b + lookback] on. *)
Lemma labels_tail_raw (df_values : string -> matrix) (file : string)
    (lsc : MinMaxScaler.t) (inputs : tensor3) (labels : matrix) (b : nat) :
  windows_of df_values file = Ok (lsc, inputs, labels) ->
  Forall (fun r => r ≠ []) (df_values file) ->
  Forall2 Qeq
    (reshape_flat (MinMaxScaler.inverse_transform lsc (drop b labels)))
    (column 0 (drop (b + lookback) (df_values file))).
Proof.
  intros Hw Hrows.
  destruct (windows_of_inv _ _ _ _ _ Hw)
    as (sc & labels0 & Hfit & Hlfit & HT & _ & Hl & -> & Hall).
  set (df := df_values file) in *.
  destruct (inverse_transform_col _ lsc (drop b labels0) Hlfit) as (s & m & Hs & Hm & Hflat).
  replace (drop b (reshape_col labels0)) with (reshape_col (drop b labels0))
    by (unfold reshape_col; now rewrite <- fmap_drop).
  rewrite Hflat. unfold column.
  apply Forall2_same_length_lookup_2.
  { rewrite !length_map, !length_drop. lia. }
  intros i y z Hy Hz.
  rewrite lookup_map in Hy. rewrite lookup_map in Hz.
  rewrite lookup_drop in Hy. rewrite lookup_drop in Hz.
  destruct (labels0 !! (b + i)%nat) as [x|] eqn:Ex; [|discriminate].
  destruct (df !! (b + lookback + i)%nat) as [r|] eqn:Er; [|discriminate].
  cbn in Hy, Hz. injection Hy as <-. injection Hz as <-.
  assert (Hi : (b + i < length df - lookback)%nat).
  { apply lookup_lt_Some in Ex. lia. }
  destruct (Hall _ Hi) as [_ Hl0]. rewrite Hl0 in Ex. injection Ex as <-.
  assert (Hne : r ≠ []).
  { rewrite Forall_forall in Hrows. apply Hrows. eapply list_elem_of_lookup_2; eauto. }
  pose proof (stored_label_round_trip _ _ _ r Hfit Hlfit Hne) as Hrt.
  replace (b + i + lookback)%nat with (b + lookback + i)%nat by lia.
  assert (Hd : MinMaxScaler.transform sc df !! (b + lookback + i)%nat
               = Some (MinMaxScaler.zip3 (fun x s m => x * s + m) r
                         (MinMaxScaler.scale_ sc) (MinMaxScaler.min_ sc))).
  { unfold MinMaxScaler.transform. now rewrite list_lookup_fmap, Er. }
  rewrite (nth_lookup_Some _ _ [] _ Hd).
  unfold MinMaxScaler.inverse_transform in Hrt. rewrite Hs, Hm in Hrt.
  cbn [map reshape_col MinMaxScaler.zip3 MinMaxScaler.transform nth] in Hrt.
  apply Forall2_cons in Hrt as [Hrt _]. now apply Forall2_cons in Hrt as [Hrt _].
Qed.

(** X19.  The target vector that [evaluate] returns for a file holds the
    consumptions, as read from the file, of its held-out rows: the rows
    from [b + lookback] on, [b] being the place where the split cuts the
    windows of the file.  The scaling and its inverse cancel. *)
Theorem evaluate_targets_raw {M : Type} `{Model M} (df_values : string -> matrix)
    (files : list string) (model : M) (nb : Notebook)
    (outputs targets : list vec) (s : Q) (j : nat) (file : string) (t : vec) :
  preprocess df_values files notebook0 = Ok nb ->
  evaluate model (test_x nb) (test_y nb) (label_scalers nb) = Ok (outputs, targets, s) ->
  odict_keys (test_x nb) !! j = Some file ->
  Forall (fun r => r ≠ []) (df_values file) ->
  targets !! j = Some t ->
  let N := (length (df_values file) - lookback)%nat in
  let b := slice_bound N (- Z.of_nat (int_tenth N)) in
  Forall2 Qeq t (column 0 (drop (b + lookback) (df_values file))).
Proof.
  intros Hpre Hev Hj Hrows Ht N b.
  pose proof (preprocess_test_labels_own _ _ _ Hpre) as Hown.
  unfold evaluate in Hev.
  destruct (for_each _ _ _) as [[os ts]|e] eqn:Hloop; [|discriminate].
  rewrite bind_Ok in Hev. injection Hev as <- <- _.
  destruct (evaluate_loop_Ok _ _ _ _ _ _ _ Hloop) as (os' & ts' & [= -> ->] & _ & _ & Hall).
  cbn [app] in Ht.
  destruct (Hall j file Hj) as (o & t' & _ & Ht' & inp & labs & out & h' & sc & Hev).
  destruct Hev as (_ & Hlabs & _ & Hsc & _ & ->).
  rewrite Ht' in Ht. injection Ht as <-.
  destruct (Hown file labs Hlabs) as (sc' & inputs & labels & Hw & Hsc' & ->).
  rewrite Hsc' in Hsc. injection Hsc as <-.
  destruct (windows_of_lengths _ _ _ _ _ Hw) as (_ & Hin & Hlab).
  unfold slice_from. rewrite Hlab, Hin. fold N b.
  now apply labels_tail_raw with (inputs := inputs).
Qed.

(** ** The evaluator returns *)

Lemma check_array_Ok (X : matrix) :
  X ≠ [] -> Forall (fun r => length r = 1%nat) X -> MinMaxScaler.check_array X = Ok X.
Proof.
  destruct X as [|[|x r] X]; intros Hne Hrows; [done| |reflexivity].
  apply Forall_cons in Hrows as [Hr _]. discriminate Hr.
Qed.

Lemma preprocess_keeps_pool_shapes (df_values : string -> matrix)
    (files : list string) (nb0 nb : Notebook) :
  pool_shapes nb0 -> preprocess df_values files nb0 = Ok nb -> pool_shapes nb.
Proof.
  unfold preprocess. revert nb0.
  induction files as [|file files IH]; intros nb0 Hinv.
  - now intros [= <-].
  - cbn [for_each]. destruct (skipped file).
    + rewrite bind_Ok. now apply IH.
    + destruct (preprocess_file df_values nb0 file) as [nb1|e] eqn:Hf; [|discriminate].
      rewrite bind_Ok. apply IH. eapply preprocess_file_pool_shapes; eauto.
Qed.

(** The test entry of a file with a window holds a window. *)
Lemma slice_from_tenth_nonempty {A} (a : list A) :
  a ≠ [] -> slice_from (- Z.of_nat (int_tenth (length a))) a ≠ [].
Proof.
  intros Hne Hnil. apply (f_equal length) in Hnil.
  assert (Hlen : (0 < length a)%nat) by (destruct a; [done|cbn; lia]).
  unfold slice_from in Hnil. rewrite length_drop in Hnil. cbn [length] in Hnil.
  destruct (int_tenth (length a)) as [|t] eqn:Et.
  - rewrite slice_bound_minus_0 in Hnil. lia.
  - rewrite slice_bound_minus_pos in Hnil by lia.
    assert (Hle : (int_tenth (length a) <= length a)%nat).
    { unfold int_tenth. apply Nat.Div0.div_le_upper_bound. lia. }
    lia.
Qed.

Lemma preprocess_file_nonempty (df_values : string -> matrix)
    (nb nb' : Notebook) (file : string) :
  test_entries_nonempty nb ->
  (lookback < length (df_values file))%nat ->
  preprocess_file df_values nb file = Ok nb' ->
  test_entries_nonempty nb'.
Proof.
  intros Hinv HT. unfold preprocess_file.
  destruct (windows_of df_values file) as [[[sc inputs] labels]|e] eqn:Hw; [|discriminate].
  rewrite bind_Ok. cbv zeta. intros [= <-] k tx.
  destruct (windows_of_lengths _ _ _ _ _ Hw) as (_ & Hin & _).
  assert (Hx : test_x (split (store_label_scaler nb file sc) file inputs labels)
               = odict_set file
                   (slice_from (- Z.of_nat (int_tenth (length inputs))) inputs)
                   (test_x nb)).
  { unfold split. now destruct (decide _). }
  rewrite Hx. destruct (decide (k = file)) as [->|Hne].
  - rewrite odict_get_set. intros [= <-]. apply slice_from_tenth_nonempty.
    intros ->. cbn in Hin. lia.
  - rewrite odict_get_set_ne by done. apply Hinv.
Qed.

Lemma preprocess_nonempty (df_values : string -> matrix)
    (files : list string) (nb0 nb : Notebook) :
  test_entries_nonempty nb0 ->
  Forall (fun f => skipped f = true \/ (lookback < length (df_values f))%nat) files ->
  preprocess df_values files nb0 = Ok nb ->
  test_entries_nonempty nb.
Proof.
  unfold preprocess. intros Hinv Hfiles. revert nb0 Hinv.
  induction Hfiles as [|file files Hfile _ IH]; intros nb0 Hinv.
  - now intros [= <-].
  - cbn [for_each]. destruct (skipped file) eqn:Hs.
    + rewrite bind_Ok. now apply IH.
    + destruct Hfile as [Hfile|Hfile]; [discriminate|].
      destruct (preprocess_file df_values nb0 file) as [nb1|e] eqn:Hf; [|discriminate].
      rewrite bind_Ok. apply IH. eapply preprocess_file_nonempty; eauto.
Qed.

(** X14.  When every file that is read has more rows than [lookback],
    and the forward pass answers each batch of test windows with one
    prediction per window, [evaluate] returns on the pools that the
    preprocessing left: no name is missing from the dictionaries it
    reads and no array it hands to the scalers is empty. *)
Theorem evaluate_returns {M : Type} `{Model M} (df_values : string -> matrix)
    (files : list string) (model : M) (nb : Notebook) :
  preprocess df_values files notebook0 = Ok nb ->
  Forall (fun f => skipped f = true \/ (lookback < length (df_values f))%nat) files ->
  (forall k inp, odict_get k (test_x nb) = Some inp ->
     exists out h',
       forward model inp (init_hidden model (length inp)) = Ok (out, h') /\
       length out = length inp /\
       Forall (fun r => length r = 1%nat) out) ->
  exists r, evaluate model (test_x nb) (test_y nb) (label_scalers nb) = Ok r.
Proof.
  intros Hpre Hfiles Hfw.
  assert (Hagree : pools_agree nb).
  { eapply preprocess_pools_agree; [|exact Hpre].
    intros k Hk. cbn in Hk. now apply elem_of_nil in Hk. }
  pose proof (preprocess_keeps_pool_shapes _ _ _ _ pool_shapes_notebook0 Hpre)
    as (_ & _ & _ & Hshape).
  assert (Hne : test_entries_nonempty nb).
  { eapply preprocess_nonempty; [|exact Hfiles|exact Hpre].
    intros k tx Hk. discriminate Hk. }
  unfold evaluate.
  assert (Hloop : forall keys acc,
             (forall k, k ∈ keys -> k ∈ odict_keys (test_x nb)) ->
             exists acc', for_each (evaluate_file model (test_x nb) (test_y nb)
                                      (label_scalers nb)) keys acc = Ok acc').
  { induction keys as [|k keys IH]; intros acc Hsub; [cbn; eauto|].
    cbn [for_each].
    assert (Hfile : exists acc1,
               evaluate_file model (test_x nb) (test_y nb) (label_scalers nb) acc k
               = Ok acc1).
    { unfold evaluate_file.
      destruct (odict_get_keys k (test_x nb)) as [inp Hinp]; [apply Hsub; left|].
      destruct (Hagree k) as [_ [sc Hsc]]; [apply Hsub; left|].
      destruct (Hshape k inp Hinp) as (_ & labs & Hlabs & Hlen & Hrows).
      destruct (Hfw k inp Hinp) as (out & h' & Hout & Holen & Horows).
      pose proof (Hne k inp Hinp) as Hinp_ne.
      rewrite Hinp, Hlabs, Hsc. cbn [getitem]. rewrite !bind_Ok. cbv zeta.
      rewrite Hout, !bind_Ok. unfold MinMaxScaler.inverse_transform_call.
      rewrite (check_array_Ok out), !bind_Ok; [|destruct out, inp; done|exact Horows].
      rewrite (check_array_Ok labs), !bind_Ok; [|destruct labs, inp; done|exact Hrows].
      eauto. }
    destruct Hfile as [acc1 ->]. rewrite bind_Ok.
    apply IH. intros k' Hk'. apply Hsub. now right. }
  destruct (Hloop (odict_keys (test_x nb)) ([], [])) as [[os ts] Hos]; [done|].
  rewrite Hos, bind_Ok. eauto.
Qed.

(** A table of exactly [lookback] rows passes the preprocessing and
    leaves an empty test entry; the evaluator then stops in the label
    scaler, which refuses the empty array of predictions. *)
Lemma evaluate_empty_test_entry :
  match preprocess Demo.df_values ["b.csv"%string] notebook0 with
  | Ok nb =>
      odict_get "b.csv" (test_x nb) = Some [] /\
      evaluate Demo.gru_net (test_x nb) (test_y nb) (label_scalers nb)
      = Raise ValueError_min_samples
  | Raise _ => False
  end.
Proof. vm_compute. split; reflexivity. Qed.

(** ** The further statements on concrete inputs *)

Ltac by_decide :=
  match goal with
  | |- ?P => apply (bool_decide_unpack P); vm_compute; exact I
  end.

(** X2 on the listing of four entries. *)
Lemma preprocess_keys_witness :
  NoDup Demo.files /\
  preprocess Demo.df_values Demo.files notebook0 = Ok Demo.nb /\
  odict_keys (test_x Demo.nb) = List.filter (fun f => negb (skipped f)) Demo.files.
Proof.
  assert (H1 : NoDup Demo.files) by by_decide.
  assert (H2 : preprocess Demo.df_values Demo.files notebook0 = Ok Demo.nb)
    by (vm_compute; reflexivity).
  exact (conj H1 (conj H2 (preprocess_keys Demo.df_values Demo.files Demo.nb H1 H2))).
Defined.

(** X3 on the same listing. *)
Lemma preprocess_pool_shapes_witness :
  preprocess Demo.df_values Demo.files notebook0 = Ok Demo.nb /\ pool_shapes Demo.nb.
Proof.
  assert (H1 : preprocess Demo.df_values Demo.files notebook0 = Ok Demo.nb)
    by (vm_compute; reflexivity).
  exact (conj H1 (preprocess_pool_shapes Demo.df_values Demo.files Demo.nb H1)).
Defined.


(** X5 on the table of 101 rows. *)
Lemma windows_unit_interval_witness :
  windows_of Demo.df_values "a.csv" = Ok (Demo.win_a.1.1, Demo.win_a.1.2, Demo.win_a.2) /\
  Forall (Forall (Forall unit_interval)) Demo.win_a.1.2 /\
  Forall (Forall unit_interval) Demo.win_a.2.
Proof.
  assert (H1 : windows_of Demo.df_values "a.csv"
               = Ok (Demo.win_a.1.1, Demo.win_a.1.2, Demo.win_a.2))
    by (vm_compute; reflexivity).
  exact (conj H1 (windows_unit_interval Demo.df_values "a.csv" _ _ _ H1)).
Defined.

(** X6 on the first label of the table of 101 rows. *)
Lemma stored_labels_raw_witness :
  windows_of Demo.df_values "a.csv" = Ok (Demo.win_a.1.1, Demo.win_a.1.2, Demo.win_a.2) /\
  Demo.df_values "a.csv" !! (0 + lookback)%nat = Some Sample.row90 /\
  Sample.row90 ≠ [] /\
  Demo.win_a.2 !! 0%nat = Some Sample.label0 /\
  Forall2 (Forall2 Qeq)
    (MinMaxScaler.inverse_transform Demo.win_a.1.1 [Sample.label0])
    [[nth 0 Sample.row90 0]].
Proof.
  assert (H1 : windows_of Demo.df_values "a.csv"
               = Ok (Demo.win_a.1.1, Demo.win_a.1.2, Demo.win_a.2))
    by (vm_compute; reflexivity).
  assert (H2 : Demo.df_values "a.csv" !! (0 + lookback)%nat = Some Sample.row90)
    by (vm_compute; reflexivity).
  assert (H3 : Sample.row90 ≠ []) by (vm_compute; discriminate).
  assert (H4 : Demo.win_a.2 !! 0%nat = Some Sample.label0) by (vm_compute; reflexivity).
  exact (conj H1 (conj H2 (conj H3 (conj H4
           (stored_labels_raw Demo.df_values "a.csv" _ _ _ 0 _ _ H1 H2 H3 H4))))).
Defined.

(** X7 on the turn for the table of 200 rows, taken on a notebook that
    holds the table of 101 rows already: one test window under
    [a.csv], ten windows in the training pool. *)
Lemma preprocess_file_frame_witness :
  preprocess_file Demo.df_values Sample.nb_a "e.csv" = Ok Sample.nb_ae /\
  length <$> odict_get "a.csv" (test_x Sample.nb_a) = Some 1%nat /\
  length <$> (test_y Sample.nb_a !! "a.csv"%string) = Some 1%nat /\
  length (train_x Sample.nb_a) = 10%nat /\
  length (train_x Sample.nb_ae) = 109%nat /\
  (forall k, k ≠ "e.csv"%string ->
     odict_get k (test_x Sample.nb_ae) = odict_get k (test_x Sample.nb_a) /\
     test_y Sample.nb_ae !! k = test_y Sample.nb_a !! k) /\
  exists added, train_x Sample.nb_ae = train_x Sample.nb_a ++ added.
Proof.
  assert (H1 : preprocess_file Demo.df_values Sample.nb_a "e.csv" = Ok Sample.nb_ae)
    by (vm_compute; reflexivity).
  assert (H2 : length <$> odict_get "a.csv" (test_x Sample.nb_a) = Some 1%nat)
    by (vm_compute; reflexivity).
  assert (H3 : length <$> (test_y Sample.nb_a !! "a.csv"%string) = Some 1%nat)
    by (vm_compute; reflexivity).
  assert (H4 : length (train_x Sample.nb_a) = 10%nat) by (vm_compute; reflexivity).
  assert (H5 : length (train_x Sample.nb_ae) = 109%nat) by (vm_compute; reflexivity).
  exact (conj H1 (conj H2 (conj H3 (conj H4 (conj H5
           (preprocess_file_frame Demo.df_values Sample.nb_a Sample.nb_ae "e.csv" H1)))))).
Defined.

(** X8 on a listing that holds the table of 40 rows. *)
Lemma preprocess_aborts_on_short_file_witness :
  "c.csv"%string ∈ Sample.files_short /\
  skipped "c.csv" = false /\
  (length (Demo.df_values "c.csv") < lookback)%nat /\
  exists e, preprocess Demo.df_values Sample.files_short notebook0 = Raise e.
Proof.
  assert (H1 : "c.csv"%string ∈ Sample.files_short)
    by by_decide.
  assert (H2 : skipped "c.csv" = false) by (vm_compute; reflexivity).
  assert (H3 : (length (Demo.df_values "c.csv") < lookback)%nat) by (vm_compute; lia).
  exact (conj H1 (conj H2 (conj H3
           (preprocess_aborts_on_short_file Demo.df_values Sample.files_short
              notebook0 "c.csv" H1 H2 H3)))).
Defined.

(** X9 on two files. *)
Lemma sMAPE_loop_unweighted_witness :
  length Sample.targets = length Sample.outputs /\
  sMAPE_loop Sample.outputs Sample.targets ==
  Qsum (zip_with (fun o t => np_mean (sMAPE_terms o t)) Sample.outputs Sample.targets)
  / inject_Z (Z.of_nat (length Sample.outputs)).
Proof.
  assert (H1 : length Sample.targets = length Sample.outputs) by reflexivity.
  exact (conj H1 (sMAPE_loop_unweighted Sample.outputs Sample.targets H1)).
Defined.

(** X10 on two files. *)
Lemma sMAPE_loop_sym_witness :
  length Sample.targets = length Sample.outputs /\
  sMAPE_loop Sample.outputs Sample.targets == sMAPE_loop Sample.targets Sample.outputs.
Proof.
  assert (H1 : length Sample.targets = length Sample.outputs) by reflexivity.
  exact (conj H1 (sMAPE_loop_sym Sample.outputs Sample.targets H1)).
Defined.

(** X11 on two files. *)
Lemma sMAPE_loop_bounds_witness :
  Forall2 (fun o t => o ≠ [] /\ length o = length t) Sample.outputs Sample.targets /\
  Forall (Forall (Qlt 0)) Sample.outputs /\
  Forall (Forall (Qlt 0)) Sample.targets /\
  0 <= sMAPE_loop Sample.outputs Sample.targets <= 1 # 2.
Proof.
  assert (H1 : Forall2 (fun o t => o ≠ [] /\ length o = length t)
                 Sample.outputs Sample.targets)
    by (repeat (apply List.Forall2_cons; [split; [discriminate|reflexivity]|]);
        apply List.Forall2_nil).
  assert (H2 : Forall (Forall (Qlt 0)) Sample.outputs) by (repeat constructor).
  assert (H3 : Forall (Forall (Qlt 0)) Sample.targets) by (repeat constructor).
  exact (conj H1 (conj H2 (conj H3
           (sMAPE_loop_bounds Sample.outputs Sample.targets H1 H2 H3)))).
Defined.

(** X12 on two files. *)
Lemma sMAPE_loop_perfect_witness :
  Forall (fun o => o ≠ [] /\ Forall (fun x => ~ x == 0) o) Sample.outputs /\
  sMAPE_loop Sample.outputs Sample.outputs == 0.
Proof.
  assert (H1 : Forall (fun o => o ≠ [] /\ Forall (fun x => ~ x == 0) o) Sample.outputs)
    by (repeat (constructor;
                [split; [discriminate|repeat (constructor; [discriminate|]); constructor]|]);
        constructor).
  exact (conj H1 (sMAPE_loop_perfect Sample.outputs H1)).
Defined.

(** X13 on a test pool whose labels are missing. *)
Lemma evaluate_missing_key_witness :
  "a.csv"%string ∈ odict_keys Demo.pool_x /\
  ((∅ : gmap string (list (list Q))) !! "a.csv"%string = None
   \/ Demo.pool_scalers !! "a.csv"%string = None) /\
  exists e, evaluate Demo.gru_net Demo.pool_x ∅ Demo.pool_scalers = Raise e.
Proof.
  assert (H1 : "a.csv"%string ∈ odict_keys Demo.pool_x)
    by by_decide.
  assert (H2 : (∅ : gmap string (list (list Q))) !! "a.csv"%string = None
               \/ Demo.pool_scalers !! "a.csv"%string = None)
    by (left; reflexivity).
  exact (conj H1 (conj H2
           (evaluate_missing_key Demo.gru_net Demo.pool_x ∅ Demo.pool_scalers
              "a.csv" H1 H2))).
Defined.

Lemma demo_last_step (inp : tensor3) :
  last_step (map (fun _ => [[11 # 20]]) inp) = Ok (map (fun _ => [11 # 20]) inp).
Proof.
  unfold last_step. induction inp as [|w inp IH]; [reflexivity|].
  cbn [map mapM]. change (getitem_last [[11 # 20]]) with (Ok (A := list Q) [11 # 20]).
  now rewrite bind_Ok, IH.
Qed.

Lemma demo_linear (inp : tensor3) :
  Linear.apply Demo.fc1 (relu (map (fun _ => [11 # 20]) inp))
  = Ok (map (fun _ => [Linear.dot [Qmax 0 (11 # 20)] [1] + 0]) inp).
Proof.
  unfold Linear.apply, relu. induction inp as [|w inp IH]; [reflexivity|].
  cbn [map mapM].
  change (Linear.apply_row Demo.fc1 [Qmax 0 (11 # 20)])
    with (Ok (A := list Q) [Linear.dot [Qmax 0 (11 # 20)] [1] + 0]).
  now rewrite bind_Ok, IH, bind_Ok.
Qed.

(** The sample network answers every batch with one prediction per
    window. *)
Lemma demo_forward_shape (inp : tensor3) (h : tensor3) :
  exists out h',
    forward Demo.gru_net inp h = Ok (out, h') /\
    length out = length inp /\ Forall (fun r => length r = 1%nat) out.
Proof.
  cbn [forward GRUNet_Model]. unfold GRUNet.forward.
  cbn [GRUNet.gru Demo.gru_net GRUNet.fc].
  rewrite demo_last_step, bind_Ok, demo_linear, bind_Ok.
  eexists _, _. split; [reflexivity|]. split; [apply length_map|].
  apply Forall_map, Forall_true. reflexivity.
Qed.

(** X14 on the listing of four entries: two are skipped, two hold
    tables of 101 and of 95 rows. *)
Lemma evaluate_returns_witness :
  preprocess Demo.df_values Demo.files notebook0 = Ok Demo.nb /\
  Forall (fun f => skipped f = true \/ (lookback < length (Demo.df_values f))%nat)
    Demo.files /\
  (forall k inp, odict_get k (test_x Demo.nb) = Some inp ->
     exists out h',
       forward Demo.gru_net inp (init_hidden Demo.gru_net (length inp)) = Ok (out, h') /\
       length out = length inp /\
       Forall (fun r => length r = 1%nat) out) /\
  exists r, evaluate Demo.gru_net (test_x Demo.nb) (test_y Demo.nb)
              (label_scalers Demo.nb) = Ok r.
Proof.
  assert (H1 : preprocess Demo.df_values Demo.files notebook0 = Ok Demo.nb)
    by (vm_compute; reflexivity).
  assert (H2 : Forall (fun f => skipped f = true
                               \/ (lookback < length (Demo.df_values f))%nat)
                 Demo.files).
  { unfold Demo.files. repeat apply Forall_cons_2; [| | | |apply Forall_nil_2].
    - right. vm_compute. lia.
    - left. vm_compute. reflexivity.
    - right. vm_compute. lia.
    - left. vm_compute. reflexivity. }
  assert (H3 : forall k inp, odict_get k (test_x Demo.nb) = Some inp ->
            exists out h',
              forward Demo.gru_net inp (init_hidden Demo.gru_net (length inp))
              = Ok (out, h') /\
              length out = length inp /\ Forall (fun r => length r = 1%nat) out)
    by (intros k inp _; apply demo_forward_shape).
  exact (conj H1 (conj H2 (conj H3
           (evaluate_returns Demo.df_values Demo.files Demo.gru_net Demo.nb H1 H2 H3)))).
Defined.

(** X15 on a sampler that draws ten indices. *)
Lemma train_small_pool_witness :
  (length (Sample.draw_small 0) < batch_size)%nat /\
  @train GRUNet.t GRUNet_Model (fun _ => Demo.gru_net) Sample.optimise Sample.draw_small
    (train_loader (take 10 Demo.big_x) (take 10 Demo.big_y)) 5
  = Raise StopIteration.
Proof.
  assert (H1 : (length (Sample.draw_small 0) < batch_size)%nat) by (vm_compute; lia).
  exact (conj H1
           (@train_small_pool GRUNet.t GRUNet_Model (fun _ => Demo.gru_net)
              Sample.optimise Sample.draw_small
              (take 10 Demo.big_x) (take 10 Demo.big_y) 5 H1)).
Defined.

(** X16 on an epoch over the pool of 2050 windows. *)
Lemma train_epoch_counter_witness :
  @train_epoch GRUNet.t GRUNet_Model Sample.optimise Sample.draw_big
    (train_loader Demo.big_x Demo.big_y) Demo.gru_net 1 = Ok Sample.epoch1 /\
  Sample.epoch1.2 = (length (Sample.draw_big 1) / batch_size)%nat.
Proof.
  assert (H1 : @train_epoch GRUNet.t GRUNet_Model Sample.optimise Sample.draw_big
                 (train_loader Demo.big_x Demo.big_y) Demo.gru_net 1 = Ok Sample.epoch1)
    by (vm_compute; reflexivity).
  exact (conj H1
           (@train_epoch_counter GRUNet.t GRUNet_Model Sample.optimise Sample.draw_big
              Demo.big_x Demo.big_y Demo.gru_net 1 Sample.epoch1 H1)).
Defined.

(** X17 on the first batch over the pool of 2050 windows. *)
Lemma batches_pair_windows_with_labels_witness :
  length Demo.big_y = length Demo.big_x /\
  Forall (fun i => (i < length Demo.big_x)%nat) Demo.big_perm /\
  Sample.batch0 ∈ DataLoader.iter (train_loader Demo.big_x Demo.big_y) Demo.big_perm /\
  Sample.batch0.1 !! 7%nat = Some [[0]] /\
  exists idx, idx ∈ Demo.big_perm /\ Demo.big_x !! idx = Some [[0]] /\
              Sample.batch0.2 !! 7%nat = Demo.big_y !! idx.
Proof.
  assert (H1 : length Demo.big_y = length Demo.big_x) by (vm_compute; reflexivity).
  assert (H2 : Forall (fun i => (i < length Demo.big_x)%nat) Demo.big_perm)
    by by_decide.
  assert (H3 : Sample.batch0
               ∈ DataLoader.iter (train_loader Demo.big_x Demo.big_y) Demo.big_perm)
    by (apply (list_elem_of_lookup_2 _ 0); vm_compute; reflexivity).
  assert (H4 : Sample.batch0.1 !! 7%nat = Some [[0]]) by (vm_compute; reflexivity).
  exact (conj H1 (conj H2 (conj H3 (conj H4
           (batches_pair_windows_with_labels Demo.big_x Demo.big_y Demo.big_perm
              Sample.batch0 7 [[0]] H1 H2 H3 H4))))).
Defined.

(** X18 on layers that answer with empty sequences. *)
Lemma forward_no_time_step_witness :
  [] ∈ (GRUNet.gru Sample.gru_empty Demo.batch2 []).1 /\
  [] ∈ (LSTMNet.lstm Sample.lstm_empty Demo.batch2 ([], [])).1 /\
  GRUNet.forward Sample.gru_empty Demo.batch2 [] = Raise IndexError /\
  LSTMNet.forward Sample.lstm_empty Demo.batch2 ([], []) = Raise IndexError.
Proof.
  assert (H1 : [] ∈ (GRUNet.gru Sample.gru_empty Demo.batch2 []).1)
    by (vm_compute; left).
  assert (H2 : [] ∈ (LSTMNet.lstm Sample.lstm_empty Demo.batch2 ([], [])).1)
    by (vm_compute; left).
  exact (conj H1 (conj H2
           (forward_no_time_step Sample.gru_empty Sample.lstm_empty Demo.batch2
              [] ([], []) H1 H2))).
Defined.

(** X19 on the first file of the listing of four entries. *)
Lemma evaluate_targets_raw_witness :
  preprocess Demo.df_values Demo.files notebook0 = Ok Demo.nb /\
  evaluate Demo.gru_net (test_x Demo.nb) (test_y Demo.nb) (label_scalers Demo.nb)
    = Ok (Demo.ev.1.1, Demo.ev.1.2, Demo.ev.2) /\
  odict_keys (test_x Demo.nb) !! 0%nat = Some "a.csv"%string /\
  Forall (fun r => r ≠ []) (Demo.df_values "a.csv") /\
  Demo.ev.1.2 !! 0%nat = Some Sample.targets_a /\
  Forall2 Qeq Sample.targets_a
    (column 0
       (drop (slice_bound (length (Demo.df_values "a.csv") - lookback)
                (- Z.of_nat (int_tenth (length (Demo.df_values "a.csv") - lookback)))
              + lookback)
          (Demo.df_values "a.csv"))).
Proof.
  assert (H1 : preprocess Demo.df_values Demo.files notebook0 = Ok Demo.nb)
    by (vm_compute; reflexivity).
  assert (H2 : evaluate Demo.gru_net (test_x Demo.nb) (test_y Demo.nb)
                 (label_scalers Demo.nb) = Ok (Demo.ev.1.1, Demo.ev.1.2, Demo.ev.2))
    by (vm_compute; reflexivity).
  assert (H3 : odict_keys (test_x Demo.nb) !! 0%nat = Some "a.csv"%string)
    by (vm_compute; reflexivity).
  assert (H4 : Forall (fun r => r ≠ []) (Demo.df_values "a.csv"))
    by (vm_compute; repeat (constructor; [discriminate|]); constructor).
  assert (H5 : Demo.ev.1.2 !! 0%nat = Some Sample.targets_a)
    by (vm_compute; reflexivity).
  exact (conj H1 (conj H2 (conj H3 (conj H4 (conj H5
           (evaluate_targets_raw Demo.df_values Demo.files Demo.gru_net Demo.nb
              Demo.ev.1.1 Demo.ev.1.2 Demo.ev.2 0 "a.csv" Sample.targets_a
              H1 H2 H3 H4 H5)))))).
Defined.
